(** * The conversation-orchestration engine of the streaming proxy

    A shallow embedding of [optimized_streaming_proxy.py]: the schema
    translator ([_convert_messages_to_openai], [_convert_tools_to_openai]),
    the backend client ([_call_groq_api]), the bounded tool loop
    ([_process_conversation_with_streaming]) and the event emitter
    ([handle_streaming_conversation] and its helpers).

    Python values are the values [json.loads] produces.  Functions that
    write to the socket, call the backend or run a tool are computations in
    a monad that threads the history of such effects and may raise; the
    history survives a raised exception, as output already written does.
    The pacing sleeps are left out, and so is debug logging except in
    [handle_messages], whose log line carries a value of the request. *)

From Stdlib Require Import String Ascii List Bool Arith ZArith QArith Lia.
From Stdlib Require Import DecimalString.
Import ListNotations.

Set Warnings "-register-all".

Local Open Scope nat_scope.
Local Open Scope list_scope.
Local Open Scope string_scope.

(** ** Python values *)

Module Py.

(** A [float]: a finite number (every binary64 value is a rational), an
    infinity or NaN; [json.loads] reads [Infinity], [-Infinity] and [NaN]
    as well as decimal numbers. *)
Inductive float_value : Type :=
| Finite (q : Q)
| Infinite (negative : bool)
| NaN.

(** A value as [json.loads] builds it: [None], [bool], [int], [float],
    [str], [list] and [dict] (keys in insertion order). *)
Inductive json : Type :=
| JNull
| JBool (b : bool)
| JInt (n : Z)
| JFloat (x : float_value)
| JStr (s : string)
| JList (l : list json)
| JObj (o : list (string * json)).

(** The exception classes the code can meet. *)
Inductive exn : Type :=
| KeyError
| IndexError
| AttributeError
| TypeError
| JSONDecodeError
| UnboundLocalError
| OtherException (name : string).

Inductive result (A : Type) : Type :=
| Ok (a : A)
| Raise (e : exn).

Arguments Ok {A} a.
Arguments Raise {A} e.

Definition rbind {A B} (r : result A) (k : A -> result B) : result B :=
  match r with
  | Ok a => k a
  | Raise e => Raise e
  end.

Fixpoint rmap {A B} (f : A -> result B) (l : list A) : result (list B) :=
  match l with
  | [] => Ok []
  | x :: xs => rbind (f x) (fun y => rbind (rmap f xs) (fun ys => Ok (y :: ys)))
  end.

(** [d[k]] on the entries of a dict. *)
Fixpoint assoc (k : string) (o : list (string * json)) : option json :=
  match o with
  | [] => None
  | (k', v) :: o' => if String.eqb k k' then Some v else assoc k o'
  end.

Definition has_key (k : string) (o : list (string * json)) : bool :=
  match assoc k o with
  | Some _ => true
  | None => false
  end.

(** [bool(v)]. *)
Definition truthy (v : json) : bool :=
  match v with
  | JNull => false
  | JBool b => b
  | JInt n => negb (Z.eqb n 0)
  | JFloat (Finite q) => negb (Qeq_bool q 0)
  | JFloat _ => true
  | JStr s => negb (String.eqb s "")
  | JList l => match l with [] => false | _ => true end
  | JObj o => match o with [] => false | _ => true end
  end.

(** [v == s] for a string literal [s]. *)
Definition is_str (v : json) (s : string) : bool :=
  match v with
  | JStr t => String.eqb t s
  | _ => false
  end.

(** [v.get(k, default)]: only a dict has the method. *)
Definition get (v : json) (k : string) (default : json) : result json :=
  match v with
  | JObj o => Ok (match assoc k o with Some x => x | None => default end)
  | _ => Raise AttributeError
  end.

(** [v[k]] for a string key. *)
Definition getitem (v : json) (k : string) : result json :=
  match v with
  | JObj o => match assoc k o with Some x => Ok x | None => Raise KeyError end
  | _ => Raise TypeError
  end.

(** Length in bytes of the UTF-8 sequence that starts with byte [c]. *)
Definition utf8_len (c : ascii) : nat :=
  let n := nat_of_ascii c in
  (if n <? 192 then 1 else if n <? 224 then 2 else if n <? 240 then 3 else 4)%nat.

(** The characters of a string, each one a string of its UTF-8 bytes. *)
Fixpoint chars_from (skip : nat) (cur : string) (s : string) : list string :=
  match s with
  | EmptyString => match cur with EmptyString => [] | _ => [cur] end
  | String c rest =>
      match skip with
      | S k => chars_from k (cur ++ String c "") rest
      | O =>
          let tl := chars_from (utf8_len c - 1) (String c "") rest in
          match cur with EmptyString => tl | _ => cur :: tl end
      end
  end.

Definition chars (s : string) : list string := chars_from 0 "" s.

(** [v[0]]. *)
Definition getitem0 (v : json) : result json :=
  match v with
  | JList (x :: _) => Ok x
  | JList [] => Raise IndexError
  | JStr s => match chars s with c :: _ => Ok (JStr c) | [] => Raise IndexError end
  | JObj _ => Raise KeyError
  | _ => Raise TypeError
  end.

(** [l[-1]] on a list. *)
Definition last_item (l : list json) : result json :=
  match rev l with
  | x :: _ => Ok x
  | [] => Raise IndexError
  end.

(** The items [for x in v] visits. *)
Definition iter (v : json) : result (list json) :=
  match v with
  | JList l => Ok l
  | JStr s => Ok (map JStr (chars s))
  | JObj o => Ok (map (fun kv => JStr (fst kv)) o)
  | _ => Raise TypeError
  end.

(** [needle in hay] for strings. *)
Fixpoint is_substring (needle hay : string) : bool :=
  String.prefix needle hay ||
  match hay with
  | EmptyString => false
  | String _ hay' => is_substring needle hay'
  end.

(** [k in v] for a string literal [k]. *)
Definition contains (k : string) (v : json) : result bool :=
  match v with
  | JObj o => Ok (has_key k o)
  | JList l => Ok (existsb (fun x => is_str x k) l)
  | JStr s => Ok (is_substring k s)
  | _ => Raise TypeError
  end.

(** [len(v)]. *)
Definition len (v : json) : result nat :=
  match v with
  | JList l => Ok (length l)
  | JObj o => Ok (length o)
  | JStr s => Ok (length (chars s))
  | _ => Raise TypeError
  end.

(** [sep.join(l)] on strings. *)
Fixpoint join (sep : string) (l : list string) : string :=
  match l with
  | [] => ""
  | [x] => x
  | x :: xs => x ++ sep ++ join sep xs
  end.

(** [sep.join(l)] on values: every item has to be a [str]. *)
Definition as_str (v : json) : result string :=
  match v with
  | JStr s => Ok s
  | _ => Raise TypeError
  end.

Definition join_values (sep : string) (l : list json) : result string :=
  rbind (rmap as_str l) (fun ss => Ok (join sep ss)).

(** [min(v, k)] for an int literal [k], that is [k if k < v else v]: the
    first argument wins a tie, a [bool] counts as 0 or 1, NaN is returned as
    it is since no number is less than it, and anything that is not a number
    cannot be compared. *)
Definition min_with (v : json) (k : Z) : result json :=
  match v with
  | JInt n => Ok (if (k <? n)%Z then JInt k else v)
  | JFloat (Finite q) => Ok (if Qle_bool q (inject_Z k) then v else JInt k)
  | JFloat (Infinite negative) => Ok (if negative then v else JInt k)
  | JFloat NaN => Ok v
  | JBool b => Ok (if (k <? (if b then 1 else 0))%Z then JInt k else v)
  | _ => Raise TypeError
  end.

(** Decimal digits of a counter, as an f-string prints it. *)
Definition str_nat (n : nat) : string := NilZero.string_of_uint (Nat.to_uint n).

(** *** [str.split()] *)

Definition is_ascii_space (c : ascii) : bool :=
  let n := nat_of_ascii c in
  (((9 <=? n) && (n <=? 13)) || ((28 <=? n) && (n <=? 32)))%nat.

Definition byte_is (c : ascii) (n : nat) : bool := (nat_of_ascii c =? n)%nat.

(** Number of bytes of the whitespace character at the head of [s], 0 when
    [s] does not start with one.  Beyond the ASCII ones these are U+0085,
    U+00A0, U+1680, U+2000..U+200A, U+2028, U+2029, U+202F, U+205F and
    U+3000 in UTF-8. *)
Definition space_len (s : string) : nat :=
  match s with
  | EmptyString => 0
  | String c rest =>
      if is_ascii_space c then 1
      else match rest with
      | EmptyString => 0
      | String d rest' =>
          if byte_is c 194 && (byte_is d 133 || byte_is d 160) then 2
          else match rest' with
          | EmptyString => 0
          | String e _ =>
              let x := nat_of_ascii e in
              if byte_is c 225 && byte_is d 154 && byte_is e 128 then 3
              else if byte_is c 226 && byte_is d 128 &&
                      (((128 <=? x) && (x <=? 138)) || (x =? 168) || (x =? 169) || (x =? 175))%nat
                   then 3
              else if byte_is c 226 && byte_is d 129 && byte_is e 159 then 3
              else if byte_is c 227 && byte_is d 128 && byte_is e 128 then 3
              else 0
          end
      end
  end.

Definition flush (word : string) (l : list string) : list string :=
  match word with
  | EmptyString => l
  | _ => word :: l
  end.

(** [split_from skip word s]: [skip] bytes of a whitespace character are
    still to be passed over, [word] is the word read so far. *)
Fixpoint split_from (skip : nat) (word : string) (s : string) : list string :=
  match s with
  | EmptyString => flush word []
  | String c rest =>
      match skip with
      | S k => split_from k word rest
      | O =>
          match space_len s with
          | O => split_from 0 (word ++ String c "") rest
          | S k => flush word (split_from k "" rest)
          end
      end
  end.

(** [s.split()]: the maximal runs without whitespace. *)
Definition split (s : string) : list string := split_from 0 "" s.

End Py.

Import Py.

(** ** Effects *)

(** What [requests.post] followed by [response.json()] can give: an answer
    with its status code and its body when that parses, a timeout, or any
    other failure of the transport. *)
Inductive post_outcome : Type :=
| Responded (status_code : Z) (body : option json)
| TimedOut
| Failed.

(** What a request handler does to the outside world, in order. *)
Inductive event : Type :=
| Frame (event_type : string) (data : json)
| Post (payload : json) (outcome : post_outcome)
| ToolRun (tool_name tool_input : json) (output : string)
| SendResponse (code : Z) (content_type : string)
| Body (body : json)
| SendError (code : Z) (message : string).

Definition history := list event.

(** Everything outside the engine: the backend, the JSON parser and the
    string conversions of the interpreter, the random identifier, and the
    bodies of the six local tools with their file system and shell.  Each may
    depend on what happened before.  [json_loads] is the parser on a [str];
    [json_loads_bytes] is the parser on the bytes of a request body, which
    besides [JSONDecodeError] can raise on bytes that do not decode or on
    nesting that is too deep; [log_write] appends a line to the debug file,
    which fails on a character the encoding of the file lacks. *)
Record environment : Type := {
  requests_post : history -> json -> post_outcome;
  json_loads : string -> option json;
  json_loads_bytes : string -> result json;
  log_write : string -> result unit;
  repr : json -> string;
  exn_str : exn -> string;
  uuid_hex8 : history -> string;
  ls_body : history -> json -> result string;
  read_body : history -> json -> result string;
  write_body : history -> json -> result string;
  edit_body : history -> json -> result string;
  bash_body : history -> json -> result string;
  glob_body : history -> json -> result string
}.

(** A computation reads and extends the history and returns or raises. *)
Definition M (A : Type) : Type := history -> result A * history.

Definition ret {A} (a : A) : M A := fun h => (Ok a, h).

Definition bind {A B} (m : M A) (k : A -> M B) : M B :=
  fun h =>
    match m h with
    | (Ok a, h') => k a h'
    | (Raise e, h') => (Raise e, h')
    end.

Definition raise {A} (e : exn) : M A := fun h => (Raise e, h).

Definition lift {A} (r : result A) : M A := fun h => (r, h).

Definition emit (e : event) : M unit := fun h => (Ok tt, (h ++ [e])%list).

Definition past : M history := fun h => (Ok h, h).

(** [try: m  except Exception as e: handler e]. *)
Definition try_except {A} (m : M A) (handler : exn -> M A) : M A :=
  fun h =>
    match m h with
    | (Ok a, h') => (Ok a, h')
    | (Raise e, h') => handler e h'
    end.

Declare Scope proxy_scope.
Delimit Scope proxy_scope with proxy.

Notation "x <- m ;; k" := (bind m (fun x => k))
  (at level 100, m at next level, right associativity) : proxy_scope.
Notation "m ;; k" := (bind m (fun _ => k))
  (at level 100, right associativity) : proxy_scope.
Notation "x <~ r ;; k" := (rbind r (fun x => k))
  (at level 100, r at next level, right associativity) : proxy_scope.

Local Open Scope proxy_scope.

(** The frames, backend calls and tool executions of a history. *)
Fixpoint frames (h : history) : list (string * json) :=
  match h with
  | [] => []
  | Frame t d :: h' => (t, d) :: frames h'
  | _ :: h' => frames h'
  end.

Fixpoint backend_calls (h : history) : nat :=
  match h with
  | [] => 0
  | Post _ _ :: h' => S (backend_calls h')
  | _ :: h' => backend_calls h'
  end.

Fixpoint tool_runs (h : history) : nat :=
  match h with
  | [] => 0
  | ToolRun _ _ _ :: h' => S (tool_runs h')
  | _ :: h' => tool_runs h'
  end.

(** The tools executed in a history, with their inputs, and the result
    texts of these executions, in order. *)
Fixpoint tools_run (h : history) : list (json * json) :=
  match h with
  | [] => []
  | ToolRun tool_name tool_input _ :: h' => (tool_name, tool_input) :: tools_run h'
  | _ :: h' => tools_run h'
  end.

Fixpoint tool_outputs (h : history) : list string :=
  match h with
  | [] => []
  | ToolRun _ _ output :: h' => output :: tool_outputs h'
  | _ :: h' => tool_outputs h'
  end.

Definition MAX_TOOL_ITERATIONS : nat := 15.

(** ** The proxy *)

Section Proxy.

Context (env : environment).

(** [str(v)]: a [str] is itself, anything else prints as its [repr]. *)
Definition str (v : json) : string :=
  match v with
  | JStr s => s
  | _ => repr env v
  end.

(** [json.loads(v)]. *)
Definition loads (v : json) : result json :=
  match v with
  | JStr s => match json_loads env s with Some x => Ok x | None => Raise JSONDecodeError end
  | _ => Raise TypeError
  end.

(** The [if]/[elif] chain inside the outer [try] of [execute_tool_locally]. *)
Definition tool_dispatch (tool_name tool_input : json) (h : history) : result string :=
  if is_str tool_name "LS" then ls_body env h tool_input
  else if is_str tool_name "Read" then read_body env h tool_input
  else if is_str tool_name "Write" then write_body env h tool_input
  else if is_str tool_name "Edit" then edit_body env h tool_input
  else if is_str tool_name "Bash" then bash_body env h tool_input
  else if is_str tool_name "Glob" then glob_body env h tool_input
  else Ok ("Tool '" ++ str tool_name ++ "' is not implemented in local execution").

Definition execute_tool_locally (tool_name tool_input : json) : M string :=
  h <- past ;;
  let output :=
    match tool_dispatch tool_name tool_input h with
    | Ok text => text
    | Raise e => "Error executing tool " ++ str tool_name ++ ": " ++ exn_str env e
    end in
  emit (ToolRun tool_name tool_input output) ;;
  ret output.

(** One frame.  On the wire [message_start] goes without its [event:] line;
    a failing write is swallowed by the code and not modelled. *)
Definition _send_event (event_type : string) (data : json) : M unit :=
  emit (Frame event_type data).

Definition text_delta (text : string) : json :=
  JObj [("type", JStr "content_block_delta");
        ("index", JInt 0);
        ("delta", JObj [("type", JStr "text_delta"); ("text", JStr text)])].

Definition _send_progress_update (text : string) (replace_previous : bool) : M unit :=
  _send_event "content_block_delta" (text_delta text).

(** *** Schema translator *)

Definition tool_result_text (item : json) : result string :=
  result_content <~ get item "content" (JStr "") ;;
  match result_content with
  | JList cs =>
      ts <~ rmap (fun c => t <~ get c "text" c ;; Ok (str t)) cs ;;
      Ok (join " " ts)
  | _ => Ok (str result_content)
  end.

(** What one content item appends to [text_parts], if anything. *)
Definition text_part (item : json) : result (option json) :=
  ty <~ get item "type" JNull ;;
  if is_str ty "text" then
    t <~ getitem item "text" ;; Ok (Some t)
  else if is_str ty "tool_result" then
    result_text <~ tool_result_text item ;;
    Ok (Some (JStr ("Tool result: " ++ result_text)))
  else Ok None.

Fixpoint text_parts_of (content : list json) : result (list json) :=
  match content with
  | [] => Ok []
  | item :: rest =>
      p <~ text_part item ;;
      ps <~ text_parts_of rest ;;
      Ok (match p with Some t => t :: ps | None => ps end)
  end.

(** The back-protocol messages one front message contributes. *)
Definition convert_message (msg : json) : result (list json) :=
  role <~ getitem msg "role" ;;
  content <~ getitem msg "content" ;;
  match content with
  | JList items =>
      text_parts <~ text_parts_of items ;;
      match text_parts with
      | [] => Ok []
      | _ =>
          joined <~ join_values " " text_parts ;;
          Ok [JObj [("role", if is_str role "user" then JStr "user" else role);
                    ("content", JStr joined)]]
      end
  | _ => Ok [JObj [("role", role); ("content", content)]]
  end.

Definition _convert_messages_to_openai (messages : json) : result (list json) :=
  msgs <~ iter messages ;;
  converted <~ rmap convert_message msgs ;;
  Ok (concat converted).

(** The function declarations one front tool contributes. *)
Definition convert_tool (tool : json) : result (list json) :=
  has_name <~ contains "name" tool ;;
  valid <~ (if has_name then contains "input_schema" tool else Ok false) ;;
  if valid then
    name <~ getitem tool "name" ;;
    description <~ get tool "description" (JStr "") ;;
    parameters <~ get tool "input_schema" (JObj []) ;;
    Ok [JObj [("type", JStr "function");
              ("function", JObj [("name", name);
                                 ("description", description);
                                 ("parameters", parameters)])]]
  else Ok [].

Definition _convert_tools_to_openai (tools : json) : result (list json) :=
  ts <~ iter tools ;;
  converted <~ rmap convert_tool ts ;;
  Ok (concat converted).

(** *** Backend client *)

Definition build_payload (messages tools : list json) (anthropic_request : json) : result json :=
  requested <~ get anthropic_request "max_tokens" (JInt 4096) ;;
  max_tokens <~ min_with requested 16384 ;;
  temperature <~ get anthropic_request "temperature" (JFloat (Finite (7 # 10))) ;;
  Ok (JObj ([("model", JStr "moonshotai/kimi-k2-instruct");
             ("messages", JList messages);
             ("max_tokens", max_tokens);
             ("temperature", temperature)]
            ++ match tools with [] => [] | _ => [("tools", JList tools)] end)%list).

(** What the client hands back for an outcome: the parsed body of a 200,
    [None] for everything else. *)
Definition usable (outcome : post_outcome) : json :=
  match outcome with
  | Responded status_code body =>
      if (status_code =? 200)%Z
      then match body with Some v => v | None => JNull end
      else JNull
  | TimedOut => JNull
  | Failed => JNull
  end.

Definition _call_groq_api (messages tools : list json) (anthropic_request : json) : M json :=
  payload <- lift (build_payload messages tools anthropic_request) ;;
  h <- past ;;
  let outcome := requests_post env h payload in
  emit (Post payload outcome) ;;
  ret (usable outcome).

(** *** Tool loop controller *)

(** The local variables that outlive an iteration; [response] is unbound
    until the first backend call returns. *)
Record locals : Type := {
  conversation_messages : list json;
  iteration : nat;
  total_tool_calls : nat;
  response : option json
}.

(** How an iteration leaves the [while] body. *)
Inductive flow : Type :=
| Continue
| Break.

(** The body of [for i, tool_call in enumerate(tool_calls)]; [count] is
    [len(tool_calls)] and [conversation] the list being appended to. *)
Definition run_tool_call (count : nat) (conversation : list json) (i : nat) (tool_call : json)
  : M (list json) :=
  tool_name <- lift (f <~ getitem tool_call "function" ;; getitem f "name") ;;
  tool_args <- lift (f <~ getitem tool_call "function" ;;
                     a <~ getitem f "arguments" ;;
                     loads a) ;;
  tool_id <- lift (getitem tool_call "id") ;;
  (if (1 <? count)%nat
   then _send_progress_update
          ("⚙️ " ++ str tool_name ++ " (" ++ str_nat (i + 1) ++ "/" ++ str_nat count ++ ")...")
          true
   else ret tt) ;;
  tool_result <- execute_tool_locally tool_name tool_args ;;
  ret (conversation ++ [JObj [("role", JStr "tool");
                              ("tool_call_id", tool_id);
                              ("content", JStr tool_result)]])%list.

Fixpoint run_tool_calls (count : nat) (i : nat) (tool_calls : list json) (conversation : list json)
  : M (list json) :=
  match tool_calls with
  | [] => ret conversation
  | tool_call :: rest =>
      conversation' <- run_tool_call count conversation i tool_call ;;
      run_tool_calls count (S i) rest conversation'
  end.

(** [response['choices'][0]['message']]. *)
Definition message_of (response : json) : result json :=
  choices <~ getitem response "choices" ;;
  choice <~ getitem0 choices ;;
  getitem choice "message".

(** The part of the loop body after the backend call: what to do with
    [response] in pass number [iteration]. *)
Definition inspect_response (st : locals) (iteration : nat) (response : json)
  : M (flow * locals) :=
  if negb (truthy response) then
    ret (Break, {| conversation_messages := conversation_messages st;
                   iteration := iteration;
                   total_tool_calls := total_tool_calls st;
                   response := Some response |})
  else
    message <- lift (message_of response) ;;
    content <- lift (get message "content" (JStr "")) ;;
    requested <- lift (get message "tool_calls" JNull) ;;
    let conversation :=
      (conversation_messages st ++ [JObj [("role", JStr "assistant");
                                          ("content", content);
                                          ("tool_calls", requested)]])%list in
    requested' <- lift (get message "tool_calls" JNull) ;;
    if truthy requested' then
      tool_calls <- lift (getitem message "tool_calls") ;;
      count <- lift (len tool_calls) ;;
      items <- lift (iter tool_calls) ;;
      tool_names <- lift (rmap (fun tc => f <~ getitem tc "function" ;; getitem f "name") items) ;;
      tool_list <- lift (join_values ", " tool_names) ;;
      _send_progress_update ("🔧 Executing " ++ tool_list ++ "...") true ;;
      conversation' <- run_tool_calls count 0 items conversation ;;
      ret (Continue, {| conversation_messages := conversation';
                        iteration := iteration;
                        total_tool_calls := total_tool_calls st + count;
                        response := Some response |})
    else
      ret (Break, {| conversation_messages := conversation;
                     iteration := iteration;
                     total_tool_calls := total_tool_calls st;
                     response := Some response |}).

(** One pass through the body of [while iteration < MAX_TOOL_ITERATIONS]. *)
Definition loop_body (openai_tools : list json) (anthropic_request : json) (st : locals)
  : M (flow * locals) :=
  let iteration := iteration st + 1 in
  _send_progress_update ("🤔 Thinking (step " ++ str_nat iteration ++ ")...") true ;;
  response <- _call_groq_api (conversation_messages st) openai_tools anthropic_request ;;
  inspect_response st iteration response.

(** The [while] loop; [fuel] bounds the passes and [MAX_TOOL_ITERATIONS] of
    it is always enough (lemma [tool_loop_fuel]). *)
Fixpoint tool_loop (fuel : nat) (openai_tools : list json) (anthropic_request : json) (st : locals)
  : M locals :=
  match fuel with
  | O => ret st
  | S fuel' =>
      if (iteration st <? MAX_TOOL_ITERATIONS)%nat then
        r <- loop_body openai_tools anthropic_request st ;;
        match r with
        | (Continue, st') => tool_loop fuel' openai_tools anthropic_request st'
        | (Break, st') => ret st'
        end
      else ret st
  end.

(** The part of [_process_conversation_with_streaming] up to the end of
    the loop. *)
Definition run_conversation (anthropic_request : json) : M locals :=
  initial_messages <- lift (get anthropic_request "messages" (JList [])) ;;
  tools <- lift (get anthropic_request "tools" (JList [])) ;;
  _send_progress_update "🔄 Starting..." true ;;
  conversation_messages <- lift (_convert_messages_to_openai initial_messages) ;;
  openai_tools <- lift (_convert_tools_to_openai tools) ;;
  tool_loop MAX_TOOL_ITERATIONS openai_tools anthropic_request
    {| conversation_messages := conversation_messages;
       iteration := 0;
       total_tool_calls := 0;
       response := None |}.

(** The front-protocol message object. *)
Definition final_response_of (message_id : string) (text input_tokens output_tokens : json) : json :=
  JObj [("id", JStr message_id);
        ("type", JStr "message");
        ("role", JStr "assistant");
        ("content", JList [JObj [("type", JStr "text"); ("text", text)]]);
        ("model", JStr "moonshotai/kimi-k2-instruct");
        ("stop_reason", JStr "end_turn");
        ("usage", JObj [("input_tokens", input_tokens);
                        ("output_tokens", output_tokens)])].

(** The part after the loop: "Build final response". *)
Definition build_final_response (message_id : string) (st : locals) : result json :=
  final_message <~ last_item (conversation_messages st) ;;
  text <~ get final_message "content" (JStr "") ;;
  response <~ match response st with Some r => Ok r | None => Raise UnboundLocalError end ;;
  input_tokens <~ (usage <~ get response "usage" (JObj []) ;; get usage "prompt_tokens" (JInt 100)) ;;
  output_tokens <~ (usage <~ get response "usage" (JObj []) ;; get usage "completion_tokens" (JInt 50)) ;;
  Ok (final_response_of message_id text input_tokens output_tokens).

Definition _process_conversation_with_streaming (anthropic_request : json) (message_id : string)
  : M json :=
  st <- run_conversation anthropic_request ;;
  lift (build_final_response message_id st).

Definition new_message_id : M string :=
  h <- past ;; ret ("msg_" ++ uuid_hex8 env h).

Definition _execute_complete_conversation (anthropic_request : json) : M json :=
  message_id <- new_message_id ;;
  _process_conversation_with_streaming anthropic_request message_id.

(** *** Event emitter *)

Fixpoint first_text (blocks : list json) : result json :=
  match blocks with
  | [] => Ok (JStr "")
  | content_block :: rest =>
      ty <~ get content_block "type" JNull ;;
      if is_str ty "text" then get content_block "text" (JStr "")
      else first_text rest
  end.

Definition _extract_text_from_response (response : json) : result json :=
  content <~ get response "content" (JList []) ;;
  blocks <~ iter content ;;
  first_text blocks.

(** [word + (" " if i < len(words) - 1 else "")] for each word in turn. *)
Fixpoint words_with_space (words : list string) : list string :=
  match words with
  | [] => []
  | [word] => [word]
  | word :: rest => (word ++ " ") :: words_with_space rest
  end.

Fixpoint send_deltas (texts : list string) : M unit :=
  match texts with
  | [] => ret tt
  | t :: rest => _send_event "content_block_delta" (text_delta t) ;; send_deltas rest
  end.

Definition paragraph_separator : string :=
  String (ascii_of_nat 10) (String (ascii_of_nat 10) "").

Definition _stream_text_naturally (text : json) : M unit :=
  if negb (truthy text) then ret tt
  else
    _send_event "content_block_delta" (text_delta paragraph_separator) ;;
    match text with
    | JStr s => send_deltas (words_with_space (split s))
    | _ => raise AttributeError
    end.

Definition content_block_stop_data : json :=
  JObj [("type", JStr "content_block_stop"); ("index", JInt 0)].

Definition message_delta_data (stop_reason usage : json) : json :=
  JObj [("type", JStr "message_delta");
        ("delta", JObj [("stop_reason", stop_reason); ("stop_sequence", JNull)]);
        ("usage", usage)].

Definition message_stop_data : json := JObj [("type", JStr "message_stop")].

Definition _send_completion_events (response : json) : M unit :=
  try_except
    (_send_event "content_block_stop" content_block_stop_data ;;
     stop_reason <- lift (get response "stop_reason" (JStr "end_turn")) ;;
     usage <- lift (get response "usage" (JObj [])) ;;
     _send_event "message_delta" (message_delta_data stop_reason usage) ;;
     _send_event "message_stop" message_stop_data)
    (fun _ => ret tt).

Definition error_data (error_message : string) : json :=
  JObj [("type", JStr "error");
        ("error", JObj [("type", JStr "api_error"); ("message", JStr error_message)])].

Definition _send_error_event (error_message : string) : M unit :=
  _send_event "error" (error_data error_message).

Definition message_start_data (message_id : string) : json :=
  JObj [("type", JStr "message_start");
        ("message", JObj [("id", JStr message_id);
                          ("type", JStr "message");
                          ("role", JStr "assistant");
                          ("content", JList []);
                          ("model", JStr "moonshotai/kimi-k2-instruct");
                          ("stop_reason", JNull);
                          ("usage", JObj [("input_tokens", JInt 0);
                                          ("output_tokens", JInt 0)])])].

Definition content_block_start_data : json :=
  JObj [("type", JStr "content_block_start");
        ("index", JInt 0);
        ("content_block", JObj [("type", JStr "text"); ("text", JStr "")])].

(** *** Request handlers *)

(** What follows the two opening frames inside the [try] block. *)
Definition stream_conversation (anthropic_request : json) (message_id : string) : M unit :=
  final_response <- _process_conversation_with_streaming anthropic_request message_id ;;
  final_text <- lift (_extract_text_from_response final_response) ;;
  _stream_text_naturally final_text ;;
  _send_completion_events final_response.

Definition handle_streaming_conversation (anthropic_request : json) : M unit :=
  emit (SendResponse 200 "text/event-stream") ;;
  try_except
    (message_id <- new_message_id ;;
     _send_event "message_start" (message_start_data message_id) ;;
     _send_event "content_block_start" content_block_start_data ;;
     stream_conversation anthropic_request message_id)
    (fun e => _send_error_event (exn_str env e)).

Definition handle_complete_conversation (anthropic_request : json) : M unit :=
  try_except
    (final_response <- _execute_complete_conversation anthropic_request ;;
     emit (SendResponse 200 "application/json") ;;
     emit (Body final_response))
    (fun e => emit (SendError 500 (exn_str env e))).

(** [log_debug(message)]. *)
Definition log_debug (message : string) : M unit := lift (log_write env message).

(** The line [handle_messages] logs for a request. *)
Definition request_line (n k : nat) (stream : json) : string :=
  "REQUEST: " ++ str_nat n ++ " messages, " ++ str_nat k ++ " tools, stream=" ++ str stream.

(** The two [except] clauses of [handle_messages]: [json.JSONDecodeError]
    first, then [Exception].  What is raised inside a clause leaves the
    handler. *)
Definition answer_error (e : exn) : M unit :=
  match e with
  | JSONDecodeError =>
      log_debug ("JSON_ERROR: " ++ exn_str env e) ;;
      emit (SendError 400 ("Invalid JSON: " ++ exn_str env e))
  | _ =>
      log_debug ("HANDLER_ERROR: " ++ exn_str env e) ;;
      emit (SendError 500 (exn_str env e))
  end.

(** [post_data] is what the first two lines of the [try] block give: the
    bytes read from the socket, or the exception [int] raised on the
    [Content-Length] header. *)
Definition handle_messages (post_data : result string) : M unit :=
  try_except
    (data <- lift post_data ;;
     anthropic_request <- lift (json_loads_bytes env data) ;;
     initial_messages <- lift (get anthropic_request "messages" (JList [])) ;;
     tools <- lift (get anthropic_request "tools" (JList [])) ;;
     stream <- lift (get anthropic_request "stream" (JBool false)) ;;
     n <- lift (len initial_messages) ;;
     k <- lift (len tools) ;;
     log_debug (request_line n k stream) ;;
     if truthy stream
     then handle_streaming_conversation anthropic_request
     else handle_complete_conversation anthropic_request)
    answer_error.

(** ** Vocabulary of the statements *)

(** A tool-call request the loop can take apart: it has a function name
    that is a string, arguments that parse, and an identifier. *)
Definition tool_call_ok (tool_call : json) : bool :=
  match (f <~ getitem tool_call "function" ;;
         name <~ getitem f "name" ;;
         _ <~ as_str name ;;
         a <~ getitem f "arguments" ;;
         _ <~ loads a ;;
         getitem tool_call "id") with
  | Ok _ => true
  | Raise _ => false
  end.

(** The identifier of a request, [None] standing in when it has none. *)
Definition tool_call_id (tool_call : json) : json :=
  match getitem tool_call "id" with
  | Ok i => i
  | Raise _ => JNull
  end.

(** The [tool] entry appended for a request whose tool printed [output]. *)
Definition tool_entry (tool_call : json) (output : string) : json :=
  JObj [("role", JStr "tool");
        ("tool_call_id", tool_call_id tool_call);
        ("content", JStr output)].

Fixpoint tool_entries (tool_calls : list json) (outputs : list string) : list json :=
  match tool_calls, outputs with
  | tool_call :: tool_calls', output :: outputs' =>
      tool_entry tool_call output :: tool_entries tool_calls' outputs'
  | _, _ => []
  end.

(** The function name of a request and its arguments once parsed, [None]
    standing in for what is missing. *)
Definition tool_call_name (tool_call : json) : json :=
  match (f <~ getitem tool_call "function" ;; getitem f "name") with
  | Ok name => name
  | Raise _ => JNull
  end.

Definition tool_call_args (tool_call : json) : json :=
  match (f <~ getitem tool_call "function" ;;
         a <~ getitem f "arguments" ;;
         loads a) with
  | Ok args => args
  | Raise _ => JNull
  end.

(** The result text of a tool on an input after the history [h]: the text
    the tool returns, or the report of the exception that escaped it. *)
Definition tool_output (tool_name tool_input : json) (h : history) : string :=
  match tool_dispatch tool_name tool_input h with
  | Ok text => text
  | Raise e => "Error executing tool " ++ str tool_name ++ ": " ++ exn_str env e
  end.

(** Every tool execution recorded in [es], which follows [h], carries the
    result text of its tool at that point. *)
Fixpoint runs_faithful (h es : history) : bool :=
  match es with
  | [] => true
  | e :: es' =>
      match e with
      | ToolRun tool_name tool_input output =>
          String.eqb output (tool_output tool_name tool_input h)
      | _ => true
      end && runs_faithful (h ++ [e])%list es'
  end.

(** The [tool_calls] field of the message of a response. *)
Definition requested (response : json) : result json :=
  m <~ message_of response ;; get m "tool_calls" JNull.

(** The response carries at least one tool call, all of them well formed. *)
Definition asks_for_tools (response : json) : bool :=
  match requested response with
  | Ok (JList (tool_call :: rest)) => forallb tool_call_ok (tool_call :: rest)
  | _ => false
  end.

(** The response carries a message and no tool call. *)
Definition no_tool_calls (response : json) : bool :=
  truthy response &&
  match requested response with
  | Ok v => negb (truthy v)
  | Raise _ => false
  end.

(** *** The translator, in the words of the design

    A content item of type [text] contributes its text; one of type
    [tool_result] contributes "Tool result: " followed by the flattened text
    of its content; any other item contributes nothing.  The flattened text
    of a content that is a string is that string, and that of a list of
    blocks is the texts of the blocks with single spaces between them; a
    tool result without content has the empty text. *)
Definition block_text (block : json) : option string :=
  match block with
  | JObj o =>
      match assoc "text" o with
      | Some (JStr t) => Some t
      | _ => None
      end
  | _ => None
  end.

Fixpoint block_texts (blocks : list json) : option (list string) :=
  match blocks with
  | [] => Some []
  | block :: rest =>
      match block_text block, block_texts rest with
      | Some t, Some ts => Some (t :: ts)
      | _, _ => None
      end
  end.

Definition flattened (content : json) : option string :=
  match content with
  | JStr s => Some s
  | JList blocks =>
      match block_texts blocks with
      | Some ts => Some (join " " ts)
      | None => None
      end
  | _ => None
  end.

Definition content_of (item : list (string * json)) : json :=
  match assoc "content" item with
  | Some content => content
  | None => JStr ""
  end.

Definition rendered (item : json) : list string :=
  match item with
  | JObj o =>
      match assoc "type" o with
      | Some ty =>
          if is_str ty "text" then
            match assoc "text" o with
            | Some (JStr t) => [t]
            | _ => []
            end
          else if is_str ty "tool_result" then
            match flattened (content_of o) with
            | Some text => ["Tool result: " ++ text]
            | None => []
            end
          else []
      | None => []
      end
  | _ => []
  end.

(** A content item of the front protocol: a dict; when it is of type [text]
    its text is a string, when it is of type [tool_result] its content is a
    string or a list of blocks that each carry a text. *)
Definition item_ok (item : json) : bool :=
  match item with
  | JObj o =>
      match assoc "type" o with
      | Some ty =>
          if is_str ty "text" then
            match assoc "text" o with
            | Some (JStr _) => true
            | _ => false
            end
          else if is_str ty "tool_result" then
            match flattened (content_of o) with
            | Some _ => true
            | None => false
            end
          else true
      | None => true
      end
  | _ => false
  end.

(** The one back-protocol message of a front message with a content list:
    the parts joined into one text under the role, or nothing when there is
    no part. *)
Definition folded (role : json) (items : list json) : list json :=
  match flat_map rendered items with
  | [] => []
  | parts => [JObj [("role", role); ("content", JStr (join " " parts))]]
  end.

(** A front tool is valid when it carries a name and an input schema. *)
Definition valid_tool (tool : list (string * json)) : bool :=
  has_key "name" tool && has_key "input_schema" tool.

Definition field (k : string) (default : json) (tool : list (string * json)) : json :=
  match assoc k tool with
  | Some v => v
  | None => default
  end.

(** The function declaration of a valid tool. *)
Definition declaration (tool : list (string * json)) : json :=
  JObj [("type", JStr "function");
        ("function", JObj [("name", field "name" JNull tool);
                           ("description", field "description" (JStr "") tool);
                           ("parameters", field "input_schema" JNull tool)])].

(** Reading a declaration back: its name and its schema. *)
Definition declared (decl : json) : result (json * json) :=
  f <~ getitem decl "function" ;;
  name <~ getitem f "name" ;;
  parameters <~ getitem f "parameters" ;;
  Ok (name, parameters).

(** The request's own options let the payload be built. *)
Definition options_ok (anthropic_request : json) : bool :=
  match build_payload [] [] anthropic_request with
  | Ok _ => true
  | Raise _ => false
  end.

(** The translated conversation and tools the loop starts from. *)
Definition translate (anthropic_request : json) : result (list json * list json) :=
  initial_messages <~ get anthropic_request "messages" (JList []) ;;
  tools <~ get anthropic_request "tools" (JList []) ;;
  conversation <~ _convert_messages_to_openai initial_messages ;;
  openai_tools <~ _convert_tools_to_openai tools ;;
  Ok (conversation, openai_tools).

(** The content of the last [assistant] entry of a conversation, if any. *)
Fixpoint last_assistant_text (conversation : list json) : option json :=
  match conversation with
  | [] => None
  | entry :: rest =>
      match last_assistant_text rest with
      | Some text => Some text
      | None =>
          match get entry "role" JNull, get entry "content" (JStr "") with
          | Ok role, Ok text => if is_str role "assistant" then Some text else None
          | _, _ => None
          end
      end
  end.

(** The backend call gave nothing usable: a timeout, a transport error, a
    status other than 200 or a body that does not parse. *)
Definition failed (outcome : post_outcome) : bool :=
  match outcome with
  | Responded status_code body =>
      negb (status_code =? 200)%Z || match body with Some _ => false | None => true end
  | TimedOut => true
  | Failed => true
  end.

Definition every_call_fails : Prop :=
  forall h payload, failed (requests_post env h payload) = true.

Definition every_reply_asks_for_tools : Prop :=
  forall h payload, asks_for_tools (usable (requests_post env h payload)) = true.

(** The first backend call made after [h] is answered by [reply]. *)
Definition first_reply_after (h : history) (reply : json) : Prop :=
  forall es payload,
    backend_calls es = 0 -> usable (requests_post env (h ++ es)%list payload) = reply.

End Proxy.

(** The frames that close a turn normally. *)
Definition closing_frames (usage : json) : list (string * json) :=
  [("content_block_stop", content_block_stop_data);
   ("message_delta", message_delta_data (JStr "end_turn") usage);
   ("message_stop", message_stop_data)].

(** A string in which no whitespace character starts, and a word: such a
    string that is not empty. *)
Fixpoint spaceless (w : string) : bool :=
  match w with
  | EmptyString => true
  | String _ w' => (space_len w =? 0)%nat && spaceless w'
  end.

Definition word (w : string) : bool := negb (String.eqb w "") && spaceless w.

(** The frame of one text delta. *)
Definition delta_frame (text : string) : event := Frame "content_block_delta" (text_delta text).

(** The local variables on entry to the loop. *)
Definition initial (conv : list json) : locals :=
  {| conversation_messages := conv; iteration := 0; total_tool_calls := 0; response := None |}.

(** The first progress frame of a request. *)
Definition starting : event := Frame "content_block_delta" (text_delta "🔄 Starting...").

(** The frame that opens pass number [n] of the loop. *)
Definition thinking (n : nat) : event :=
  Frame "content_block_delta" (text_delta ("🤔 Thinking (step " ++ str_nat n ++ ")...")).

(** Classes of events. *)
Definition is_delta (e : event) : bool :=
  match e with
  | Frame t _ => String.eqb t "content_block_delta"
  | _ => false
  end.

Definition is_post (e : event) : bool :=
  match e with
  | Post _ _ => true
  | _ => false
  end.

Definition is_tool_run (e : event) : bool :=
  match e with
  | ToolRun _ _ _ => true
  | _ => false
  end.

(** What the tool loop may do, and what it may do between backend calls. *)
Definition loop_event (e : event) : bool := is_delta e || is_post e || is_tool_run e.

Definition quiet_event (e : event) : bool := is_delta e || is_tool_run e.

(** [m] appends to the history only events of class [P]. *)
Definition emits {A} (P : event -> bool) (m : M A) : Prop :=
  forall h, exists es, snd (m h) = (h ++ es)%list /\ forallb P es = true.

(** [m] makes at most [n] backend calls. *)
Definition calls_at_most {A} (n : nat) (m : M A) : Prop :=
  forall h, exists es, snd (m h) = (h ++ es)%list /\ backend_calls es <= n.

(** Whatever [m] returns satisfies [Q]. *)
Definition returns {A} (Q : A -> Prop) (m : M A) : Prop :=
  forall h a h', m h = (Ok a, h') -> Q a.

(** How many frames of type [t] a sequence holds. *)
Definition occurrences (t : string) (fs : list (string * json)) : nat :=
  length (filter (fun f => String.eqb (fst f) t) fs).

(** The [tool_call_id] fields of conversation entries. *)
Definition entry_ids (entries : list json) : list json :=
  map (fun entry => match get entry "tool_call_id" JNull with Ok i => i | Raise _ => JNull end)
      entries.

Definition entry_roles (entries : list json) : list json :=
  map (fun entry => match get entry "role" JNull with Ok r => r | Raise _ => JNull end) entries.

(** ** Sample surroundings and requests *)

Module Sample.

(** A parser that knows the empty object and rejects everything else. *)
Definition loads_empty_object (s : string) : option json :=
  if String.eqb s "{}" then Some (JObj []) else None.

Definition class_name (e : exn) : string :=
  match e with
  | KeyError => "KeyError"
  | IndexError => "IndexError"
  | AttributeError => "AttributeError"
  | TypeError => "TypeError"
  | JSONDecodeError => "JSONDecodeError"
  | UnboundLocalError => "UnboundLocalError"
  | OtherException name => name
  end.

(** A parser of request bodies that knows the empty object, cannot decode
    the byte 255 and finds everything else malformed. *)
Definition loads_body (s : string) : result json :=
  if String.eqb s "{}" then Ok (JObj [])
  else if String.eqb s (String (ascii_of_nat 255) "")
       then Raise (OtherException "UnicodeDecodeError")
       else Raise JSONDecodeError.

(** Surroundings with the backend [post] and the directory listing [ls];
    every other tool fails with a permission error, and every line can be
    logged. *)
Definition surroundings (post : history -> json -> post_outcome)
    (ls : history -> json -> result string) : environment :=
  {| requests_post := post;
     json_loads := loads_empty_object;
     json_loads_bytes := loads_body;
     log_write := fun _ => Ok tt;
     repr := fun _ => "<value>";
     exn_str := class_name;
     uuid_hex8 := fun _ => "0a1b2c3d";
     ls_body := ls;
     read_body := fun _ _ => Raise (OtherException "PermissionError");
     write_body := fun _ _ => Raise (OtherException "PermissionError");
     edit_body := fun _ _ => Raise (OtherException "PermissionError");
     bash_body := fun _ _ => Raise (OtherException "PermissionError");
     glob_body := fun _ _ => Raise (OtherException "PermissionError") |}.

Definition listing : history -> json -> result string := fun _ _ => Ok "- /work/".

Definition usage_7_3 : json :=
  JObj [("prompt_tokens", JInt 7); ("completion_tokens", JInt 3)].

Definition reply (message : json) : post_outcome :=
  Responded 200 (Some (JObj [("choices", JList [JObj [("message", message)]]);
                             ("usage", usage_7_3)])).

Definition call (id name arguments : string) : json :=
  JObj [("id", JStr id);
        ("type", JStr "function");
        ("function", JObj [("name", JStr name); ("arguments", JStr arguments)])].

Definition plain (text : string) : json :=
  JObj [("role", JStr "assistant"); ("content", JStr text)].

Definition asking (text : string) (calls : list json) : json :=
  JObj [("role", JStr "assistant"); ("content", JStr text); ("tool_calls", JList calls)].

(** Backends: one that times out, one that answers in plain text, one that
    asks for a directory listing on every call, one that asks once and then
    answers, and one whose request has arguments that do not parse. *)
Definition times_out : history -> json -> post_outcome := fun _ _ => TimedOut.

Definition says_hello : history -> json -> post_outcome :=
  fun _ _ => reply (plain "Hello there").

Definition keeps_listing : history -> json -> post_outcome :=
  fun h _ => reply (asking ("step " ++ str_nat (backend_calls h))
                           [call ("call_" ++ str_nat (backend_calls h)) "LS" "{}"]).

Definition lists_then_answers : history -> json -> post_outcome :=
  fun h _ =>
    match backend_calls h with
    | O => reply (asking "" [call "call_0" "LS" "{}"])
    | S _ => reply (plain "Two files")
    end.

(** A request for a listing whose arguments are cut short, and a backend
    that sends it. *)
Definition broken_call : json := call "call_0" "LS" "{".

Definition asks_brokenly : history -> json -> post_outcome :=
  fun _ _ => reply (asking "" [broken_call]).

(** Two requests the loop can take apart: reading fails in these
    surroundings, listing works. *)
Definition read_then_list : list json :=
  [call "call_a" "Read" "{}"; call "call_b" "LS" "{}"].

(** A front message with a text item, an image and a tool result. *)
Definition mixed_items : list json :=
  [JObj [("type", JStr "text"); ("text", JStr "Here it is:")];
   JObj [("type", JStr "image"); ("source", JObj [])];
   JObj [("type", JStr "tool_result"); ("tool_use_id", JStr "call_0");
         ("content", JList [JObj [("type", JStr "text"); ("text", JStr "a.txt")];
                            JObj [("type", JStr "text"); ("text", JStr "b.txt")]])]].

Definition mixed_message : json :=
  JObj [("role", JStr "user"); ("content", JList mixed_items)].

Definition user_says (text : string) : json :=
  JObj [("role", JStr "user"); ("content", JStr text)].

Definition LS_tool : json :=
  JObj [("name", JStr "LS"); ("input_schema", JObj [("type", JStr "object")])].

Definition list_files (stream : bool) : json :=
  JObj [("messages", JList [user_says "list files"]);
        ("tools", JList [LS_tool]);
        ("stream", JBool stream)].

End Sample.

(** ** Routing *)

(** [path.split('?')[0]]: the path up to its first question mark. *)
Fixpoint before_query (path : string) : string :=
  match path with
  | EmptyString => EmptyString
  | String c rest => if Ascii.eqb c "?" then EmptyString else String c (before_query rest)
  end.

Definition health : json :=
  JObj [("status", JStr "ok");
        ("service", JStr "kimi-streaming-proxy");
        ("version", JStr "1.0.0");
        ("features", JList [JStr "streaming"; JStr "tool_calling";
                            JStr "claude_code_compatible"])].

Definition not_found (path : string) : event :=
  SendError 404 ("Path " ++ path ++ " not found").

Definition do_GET (request_path : string) : M unit :=
  let path := before_query request_path in
  if String.eqb path "/health" then
    (emit (SendResponse 200 "application/json") ;; emit (Body health))%proxy
  else emit (not_found path).

(** [post_data] is what reading the body gives, as in [handle_messages]. *)
Definition do_POST (env : environment) (request_path : string) (post_data : result string)
  : M unit :=
  let path := before_query request_path in
  if String.eqb path "/v1/messages" || String.eqb path "/messages" then
    handle_messages env post_data
  else emit (not_found path).

(** ** More vocabulary *)

(** No backend call follows one that gave nothing usable. *)
Fixpoint no_retry (es : history) : bool :=
  match es with
  | [] => true
  | Post _ outcome :: es' =>
      (truthy (usable outcome) || (backend_calls es' =? 0)%nat) && no_retry es'
  | _ :: es' => no_retry es'
  end.

(** An entry the loop appends: an assistant message or a tool result. *)
Definition from_loop (entry : json) : bool :=
  match get entry "role" JNull with
  | Ok role => is_str role "assistant" || is_str role "tool"
  | Raise _ => false
  end.

(** A back-protocol message as the translator writes it: a role and a
    content that is not a list. *)
Definition plain_message (entry : json) : bool :=
  match entry with
  | JObj [(k1, _); (k2, content)] =>
      String.eqb k1 "role" && String.eqb k2 "content" &&
      match content with JList _ => false | _ => true end
  | _ => false
  end.

(** A number that is at most [k]; a [bool] counts as 0 or 1, and NaN is
    at most nothing. *)
Definition at_most (v : json) (k : Z) : bool :=
  match v with
  | JInt n => (n <=? k)%Z
  | JFloat (Finite q) => Qle_bool q (inject_Z k)
  | JFloat (Infinite negative) => negative
  | JFloat NaN => false
  | JBool b => ((if b then 1 else 0) <=? k)%Z
  | _ => false
  end.

Definition is_nan (v : json) : bool :=
  match v with
  | JFloat NaN => true
  | _ => false
  end.

(** The payload asks for at most 16384 tokens. *)
Definition capped (payload : json) : bool :=
  match getitem payload "max_tokens" with
  | Ok v => at_most v 16384
  | Raise _ => false
  end.

(** The payload asks for at most 16384 tokens, or for NaN. *)
Definition capped_or_nan (payload : json) : bool :=
  match getitem payload "max_tokens" with
  | Ok v => at_most v 16384 || is_nan v
  | Raise _ => false
  end.

(** The request asks for NaN tokens. *)
Definition asks_nan (anthropic_request : json) : bool :=
  match get anthropic_request "max_tokens" (JInt 4096) with
  | Ok v => is_nan v
  | Raise _ => false
  end.

(** The payload is a dict whose [tools], when given, is not empty. *)
Definition no_empty_tools (payload : json) : bool :=
  match payload with
  | JObj o =>
      match assoc "tools" o with
      | Some tools => truthy tools
      | None => true
      end
  | _ => false
  end.

(** An event that is not a backend call, or a call whose payload is in
    class [P]. *)
Definition posts (P : json -> bool) (e : event) : bool :=
  match e with
  | Post payload _ => P payload
  | _ => true
  end.

(** What a streaming handler may do once the status line is out. *)
Definition stream_event (e : event) : bool :=
  match e with
  | Frame _ _ => true
  | Post _ _ => true
  | ToolRun _ _ _ => true
  | _ => false
  end.

(** The six tools with a local implementation. *)
Definition known_tool (tool_name : json) : bool :=
  is_str tool_name "LS" || is_str tool_name "Read" || is_str tool_name "Write" ||
  is_str tool_name "Edit" || is_str tool_name "Bash" || is_str tool_name "Glob".

(** Is the block a dict whose type is [text]? *)
Definition is_text_block (block : json) : bool :=
  match get block "type" JNull with
  | Ok ty => is_str ty "text"
  | Raise _ => false
  end.

Definition is_dict (v : json) : bool :=
  match v with
  | JObj _ => true
  | _ => false
  end.

(** ** A sample run *)

Module Runs.

(** The run in which the backend asks for one listing and then answers. *)
Definition listing_run : result locals * history :=
  run_conversation (Sample.surroundings Sample.lists_then_answers Sample.listing)
    (Sample.list_files false) [].

Definition listing_state : locals :=
  match fst listing_run with
  | Ok st => st
  | Raise _ => initial []
  end.

(** A request whose second message has no role. *)
Definition nameless : list (string * json) :=
  [("messages", JList [Sample.user_says "hi"; JObj [("content", JStr "who am I?")]])].

(** A conversation with a plain message and one made of items. *)
Definition mixed_conversation : json :=
  JList [Sample.user_says "list files"; Sample.mixed_message].

(** Surroundings in which the line logged for a request cannot be written,
    as when the [stream] value holds a lone surrogate. *)
Definition unloggable_request : environment :=
  {| requests_post := Sample.says_hello;
     json_loads := Sample.loads_empty_object;
     json_loads_bytes := Sample.loads_body;
     log_write := fun message =>
                    if String.prefix "REQUEST" message
                    then Raise (OtherException "UnicodeEncodeError")
                    else Ok tt;
     repr := fun _ => "<value>";
     exn_str := Sample.class_name;
     uuid_hex8 := fun _ => "0a1b2c3d";
     ls_body := Sample.listing;
     read_body := fun _ _ => Raise (OtherException "PermissionError");
     write_body := fun _ _ => Raise (OtherException "PermissionError");
     edit_body := fun _ _ => Raise (OtherException "PermissionError");
     bash_body := fun _ _ => Raise (OtherException "PermissionError");
     glob_body := fun _ _ => Raise (OtherException "PermissionError") |}.

End Runs.

(** * Properties *)

Local Open Scope proxy_scope.
Local Open Scope list_scope.

(** ** Histories *)

Lemma frames_app (h1 h2 : history) : frames (h1 ++ h2) = (frames h1 ++ frames h2)%list.
Proof.
  induction h1 as [|e h1 IH]; simpl; [reflexivity|].
  destruct e; simpl; rewrite ?IH; reflexivity.
Qed.

Lemma backend_calls_app (h1 h2 : history) :
  backend_calls (h1 ++ h2) = backend_calls h1 + backend_calls h2.
Proof.
  induction h1 as [|e h1 IH]; simpl; [reflexivity|].
  destruct e; simpl; rewrite ?IH; reflexivity.
Qed.

Lemma tool_runs_app (h1 h2 : history) : tool_runs (h1 ++ h2) = tool_runs h1 + tool_runs h2.
Proof.
  induction h1 as [|e h1 IH]; simpl; [reflexivity|].
  destruct e; simpl; rewrite ?IH; reflexivity.
Qed.

Lemma quiet_no_calls (es : history) : forallb quiet_event es = true -> backend_calls es = 0.
Proof.
  induction es as [|e es IH]; simpl; [reflexivity|].
  intros H. apply andb_prop in H. destruct H as [He Hes].
  destruct e; simpl in *; try discriminate; auto.
Qed.

Lemma quiet_is_loop (e : event) : quiet_event e = true -> loop_event e = true.
Proof.
  unfold quiet_event, loop_event.
  destruct (is_delta e), (is_post e), (is_tool_run e); simpl; auto.
Qed.

Lemma loop_frames_are_deltas (es : history) :
  forallb loop_event es = true ->
  Forall (fun f => fst f = "content_block_delta") (frames es).
Proof.
  induction es as [|e es IH]; simpl; [constructor|].
  intros H. apply andb_prop in H. destruct H as [He Hes].
  destruct e; simpl in *; try discriminate; auto.
  constructor; auto. simpl.
  unfold loop_event in He. simpl in He. rewrite !orb_false_r in He.
  apply String.eqb_eq in He. exact He.
Qed.

(** ** Computations *)

Section Emits.

Context {A : Type} (P : event -> bool).

Lemma emits_ret (a : A) : emits P (ret a).
Proof. intros h. exists []. simpl. rewrite app_nil_r. auto. Qed.

Lemma emits_lift (r : result A) : emits P (lift r).
Proof. intros h. exists []. simpl. rewrite app_nil_r. auto. Qed.

Lemma emits_raise (e : exn) : emits P (@raise A e).
Proof. intros h. exists []. simpl. rewrite app_nil_r. auto. Qed.

Lemma emits_bind {B} (m : M B) (k : B -> M A) :
  emits P m -> (forall b, emits P (k b)) -> emits P (bind m k).
Proof.
  intros Hm Hk h. destruct (Hm h) as [es1 [E1 F1]].
  unfold bind. destruct (m h) as [[b|e] h']; simpl in E1; subst h'.
  - destruct (Hk b (h ++ es1)%list) as [es2 [E2 F2]].
    exists (es1 ++ es2)%list. rewrite E2, app_assoc, forallb_app, F1, F2. auto.
  - exists es1. auto.
Qed.

Lemma emits_try (m : M A) (handler : exn -> M A) :
  emits P m -> (forall e, emits P (handler e)) -> emits P (try_except m handler).
Proof.
  intros Hm Hk h. destruct (Hm h) as [es1 [E1 F1]].
  unfold try_except. destruct (m h) as [[b|e] h']; simpl in E1; subst h'.
  - exists es1. auto.
  - destruct (Hk e (h ++ es1)%list) as [es2 [E2 F2]].
    exists (es1 ++ es2)%list. rewrite E2, app_assoc, forallb_app, F1, F2. auto.
Qed.

Lemma emits_weaken (Q : event -> bool) (m : M A) :
  (forall e, Q e = true -> P e = true) -> emits Q m -> emits P m.
Proof.
  intros HQ Hm h. destruct (Hm h) as [es [E F]]. exists es. split; [exact E|].
  rewrite forallb_forall in *. auto.
Qed.

End Emits.

Lemma emits_past (P : event -> bool) : emits P past.
Proof. intros h. exists []. simpl. rewrite app_nil_r. auto. Qed.

Lemma emits_emit (P : event -> bool) (e : event) : P e = true -> emits P (emit e).
Proof. intros He h. exists [e]. simpl. rewrite He. auto. Qed.

Lemma quiet_calls_nothing {A} (m : M A) : emits quiet_event m -> calls_at_most 0 m.
Proof.
  intros Hm h. destruct (Hm h) as [es [E F]]. exists es. split; [exact E|].
  rewrite (quiet_no_calls es F). auto.
Qed.

Lemma calls_bind {A B} (a b : nat) (m : M A) (k : A -> M B) :
  calls_at_most a m -> (forall x, calls_at_most b (k x)) -> calls_at_most (a + b) (bind m k).
Proof.
  intros Hm Hk h. destruct (Hm h) as [es1 [E1 F1]].
  unfold bind. destruct (m h) as [[x|e] h']; simpl in E1; subst h'.
  - destruct (Hk x (h ++ es1)%list) as [es2 [E2 F2]].
    exists (es1 ++ es2)%list. rewrite E2, app_assoc, backend_calls_app. split; [reflexivity | lia].
  - exists es1. split; [reflexivity | lia].
Qed.

Lemma calls_weaken {A} (a b : nat) (m : M A) : a <= b -> calls_at_most a m -> calls_at_most b m.
Proof.
  intros Hab Hm h. destruct (Hm h) as [es [E F]]. exists es. split; [exact E | lia].
Qed.

(** One step of a structural proof that a computation stays in a class. *)
Ltac emits_step :=
  match goal with
  | |- emits _ (bind _ _) => apply emits_bind; [| intros ?]
  | |- emits _ (ret _) => apply emits_ret
  | |- emits _ (lift _) => apply emits_lift
  | |- emits _ (raise _) => apply emits_raise
  | |- emits _ past => apply emits_past
  | |- emits _ (emit _) => apply emits_emit; reflexivity
  | |- emits _ (try_except _ _) => apply emits_try; [| intros ?]
  | |- emits _ (if ?b then _ else _) => destruct b
  | |- emits _ (match ?x with _ => _ end) => destruct x
  end.

Ltac emits_auto := repeat emits_step.

Lemma send_event_delta (P : event -> bool) (d : json) :
  P (Frame "content_block_delta" d) = true -> emits P (_send_event "content_block_delta" d).
Proof. intros H. apply emits_emit. exact H. Qed.

Lemma progress_quiet (text : string) (b : bool) : emits quiet_event (_send_progress_update text b).
Proof. apply send_event_delta. reflexivity. Qed.

Lemma execute_quiet (env : environment) (name input : json) :
  emits quiet_event (execute_tool_locally env name input).
Proof. unfold execute_tool_locally. emits_auto. Qed.

Lemma run_tool_call_quiet (env : environment) (count : nat) (conv : list json) (i : nat) (tc : json) :
  emits quiet_event (run_tool_call env count conv i tc).
Proof.
  unfold run_tool_call. emits_auto; try apply progress_quiet; apply execute_quiet.
Qed.

Lemma run_tool_calls_quiet (env : environment) (count : nat) (tcs : list json) :
  forall (i : nat) (conv : list json), emits quiet_event (run_tool_calls env count i tcs conv).
Proof.
  induction tcs as [|tc tcs IH]; intros i conv; simpl.
  - apply emits_ret.
  - apply emits_bind; [apply run_tool_call_quiet | intros conv'; apply IH].
Qed.

(** ** What the tool loop does to the history *)

Lemma call_groq_api_loop (env : environment) (ms ts : list json) (req : json) :
  emits loop_event (_call_groq_api env ms ts req).
Proof. unfold _call_groq_api. emits_auto. Qed.

Lemma call_groq_api_once (env : environment) (ms ts : list json) (req : json) :
  calls_at_most 1 (_call_groq_api env ms ts req).
Proof.
  intros h. unfold _call_groq_api, bind, lift, past, emit, ret.
  destruct (build_payload ms ts req) as [payload|e].
  - exists [Post payload (requests_post env h payload)]. simpl. auto.
  - exists []. simpl. rewrite app_nil_r. auto.
Qed.

Lemma inspect_response_quiet (env : environment) (st : locals) (n : nat) (response : json) :
  emits quiet_event (inspect_response env st n response).
Proof.
  unfold inspect_response.
  emits_auto; try apply progress_quiet; apply run_tool_calls_quiet.
Qed.

Lemma loop_body_calls (env : environment) (ts : list json) (req : json) (st : locals) :
  calls_at_most 1 (loop_body env ts req st).
Proof.
  unfold loop_body.
  apply (calls_bind 0 1); [apply quiet_calls_nothing, progress_quiet | intros _].
  apply (calls_bind 1 0); [apply call_groq_api_once | intros response].
  apply quiet_calls_nothing, inspect_response_quiet.
Qed.

Lemma loop_body_loop (env : environment) (ts : list json) (req : json) (st : locals) :
  emits loop_event (loop_body env ts req st).
Proof.
  unfold loop_body.
  apply emits_bind; [apply (emits_weaken _ quiet_event), progress_quiet; apply quiet_is_loop | intros _].
  apply emits_bind; [apply call_groq_api_loop | intros response].
  apply (emits_weaken _ quiet_event), inspect_response_quiet; apply quiet_is_loop.
Qed.

Lemma tool_loop_calls (env : environment) (ts : list json) (req : json) :
  forall (fuel : nat) (st : locals), calls_at_most fuel (tool_loop env fuel ts req st).
Proof.
  induction fuel as [|fuel IH]; intros st; simpl.
  - apply quiet_calls_nothing, emits_ret.
  - destruct (iteration st <? MAX_TOOL_ITERATIONS)%nat.
    + apply (calls_bind 1 fuel); [apply loop_body_calls | intros [[|] st']].
      * apply IH.
      * apply (calls_weaken 0); [lia | apply quiet_calls_nothing, emits_ret].
    + apply (calls_weaken 0); [lia | apply quiet_calls_nothing, emits_ret].
Qed.

Lemma tool_loop_loop (env : environment) (ts : list json) (req : json) :
  forall (fuel : nat) (st : locals), emits loop_event (tool_loop env fuel ts req st).
Proof.
  induction fuel as [|fuel IH]; intros st; simpl.
  - apply emits_ret.
  - destruct (iteration st <? MAX_TOOL_ITERATIONS)%nat; [|apply emits_ret].
    apply emits_bind; [apply loop_body_loop | intros [[|] st']]; [apply IH | apply emits_ret].
Qed.

Lemma run_conversation_loop (env : environment) (req : json) :
  emits loop_event (run_conversation env req).
Proof.
  unfold run_conversation.
  emits_auto; try apply tool_loop_loop.
  apply (emits_weaken _ quiet_event), progress_quiet; apply quiet_is_loop.
Qed.

Lemma run_conversation_calls (env : environment) (req : json) :
  calls_at_most MAX_TOOL_ITERATIONS (run_conversation env req).
Proof.
  unfold run_conversation.
  apply (calls_bind 0 _); [apply quiet_calls_nothing; emits_auto | intros initial_messages].
  apply (calls_bind 0 _); [apply quiet_calls_nothing; emits_auto | intros tools].
  apply (calls_bind 0 _); [apply quiet_calls_nothing, progress_quiet | intros _].
  apply (calls_bind 0 _); [apply quiet_calls_nothing; emits_auto | intros conv].
  apply (calls_bind 0 _); [apply quiet_calls_nothing; emits_auto | intros openai_tools].
  apply tool_loop_calls.
Qed.

Lemma process_loop (env : environment) (req : json) (message_id : string) :
  emits loop_event (_process_conversation_with_streaming env req message_id).
Proof.
  unfold _process_conversation_with_streaming.
  apply emits_bind; [apply run_conversation_loop | intros st; apply emits_lift].
Qed.

Lemma process_calls (env : environment) (req : json) (message_id : string) :
  calls_at_most MAX_TOOL_ITERATIONS (_process_conversation_with_streaming env req message_id).
Proof.
  unfold _process_conversation_with_streaming.
  apply (calls_weaken (MAX_TOOL_ITERATIONS + 0)); [lia|].
  apply calls_bind; [apply run_conversation_calls | intros st].
  apply quiet_calls_nothing, emits_lift.
Qed.

(** ** Results *)

Lemma returns_ret {A} (Q : A -> Prop) (a : A) : Q a -> returns Q (ret a).
Proof. intros Ha h a' h' E. inversion E; subst. exact Ha. Qed.

Lemma returns_bind {A B} (Q : B -> Prop) (m : M A) (k : A -> M B) :
  (forall a, returns Q (k a)) -> returns Q (bind m k).
Proof.
  intros Hk h b h' E. unfold bind in E.
  destruct (m h) as [[a|e] h1]; [|discriminate].
  exact (Hk a h1 b h' E).
Qed.

(** Every pass that returns has counted one iteration. *)
Lemma loop_body_counts (env : environment) (ts : list json) (req : json) (st : locals) :
  returns (fun r => iteration (snd r) = iteration st + 1) (loop_body env ts req st).
Proof.
  unfold loop_body, inspect_response.
  repeat first
    [ apply returns_bind; intros ?
    | apply returns_ret; reflexivity
    | match goal with |- returns _ (if ?b then _ else _) => destruct b end ].
Qed.

(** More fuel than the iterations left changes nothing: the loop always
    ends because its condition fails or it breaks, never for lack of fuel. *)
Lemma tool_loop_fuel (env : environment) (ts : list json) (req : json) :
  forall (fuel : nat) (st : locals) (h : history),
    MAX_TOOL_ITERATIONS - iteration st <= fuel ->
    tool_loop env fuel ts req st h =
    tool_loop env (MAX_TOOL_ITERATIONS - iteration st) ts req st h.
Proof.
  induction fuel as [|fuel IH]; intros st h Hfuel.
  - replace (MAX_TOOL_ITERATIONS - iteration st) with 0 by lia. reflexivity.
  - destruct (MAX_TOOL_ITERATIONS - iteration st) as [|left] eqn:Eleft.
    + simpl. destruct (Nat.ltb_spec (iteration st) MAX_TOOL_ITERATIONS); [lia | reflexivity].
    + simpl. destruct (Nat.ltb_spec (iteration st) MAX_TOOL_ITERATIONS); [|reflexivity].
      unfold bind.
      destruct (loop_body env ts req st h) as [[[[|] st']|e] h1] eqn:Ebody; try reflexivity.
      pose proof (loop_body_counts env ts req st h _ _ Ebody) as Hcount. simpl in Hcount.
      assert (Hleft : left = MAX_TOOL_ITERATIONS - iteration st') by lia.
      rewrite Hleft. apply IH. lia.
Qed.

(** ** Executing tool calls *)

Lemma execute_tool_locally_total (env : environment) (name input : json) (h : history) :
  execute_tool_locally env name input h =
  (Ok match tool_dispatch env name input h with
      | Ok text => text
      | Raise e => ("Error executing tool " ++ str env name ++ ": " ++ exn_str env e)%string
      end,
   h ++ [ToolRun name input
           match tool_dispatch env name input h with
           | Ok text => text
           | Raise e => ("Error executing tool " ++ str env name ++ ": " ++ exn_str env e)%string
           end]).
Proof. reflexivity. Qed.

Lemma run_tool_call_ok (env : environment) (count : nat) (conv : list json) (i : nat)
    (tc : json) (h : history) :
  tool_call_ok env tc = true ->
  exists output h',
    run_tool_call env count conv i tc h = (Ok (conv ++ [tool_entry tc output]), h') /\
    tool_runs h' = tool_runs h + 1.
Proof.
  unfold tool_call_ok.
  destruct (getitem tc "function") as [f|] eqn:Ef; simpl; [|discriminate].
  destruct (getitem f "name") as [name|] eqn:En; simpl; [|discriminate].
  destruct (as_str name) as [n|] eqn:Es; simpl; [|discriminate].
  destruct (getitem f "arguments") as [a|] eqn:Ea; simpl; [|discriminate].
  destruct (loads env a) as [args|] eqn:El; simpl; [|discriminate].
  destruct (getitem tc "id") as [id|] eqn:Ei; [|discriminate].
  intros _. unfold run_tool_call, bind, lift. rewrite Ef. simpl. rewrite En, Ea. simpl.
  rewrite El, Ei.
  destruct (1 <? count)%nat; simpl;
    eexists; eexists; unfold tool_entry, tool_call_id; rewrite Ei;
    (split; [reflexivity|]); rewrite !tool_runs_app; simpl; lia.
Qed.

Lemma run_tool_calls_ok (env : environment) (count : nat) (tcs : list json) :
  forall (i : nat) (conv : list json) (h : history),
    forallb (tool_call_ok env) tcs = true ->
    exists outputs h',
      run_tool_calls env count i tcs conv h = (Ok (conv ++ tool_entries tcs outputs), h') /\
      length outputs = length tcs /\
      tool_runs h' = tool_runs h + length tcs.
Proof.
  induction tcs as [|tc tcs IH]; intros i conv h Hok; simpl in *.
  - exists [], h. rewrite app_nil_r. auto.
  - apply andb_prop in Hok. destruct Hok as [Htc Htcs].
    destruct (run_tool_call_ok env count conv i tc h Htc) as (output & h1 & E1 & R1).
    destruct (IH (S i) (conv ++ [tool_entry tc output]) h1 Htcs) as (outputs & h2 & E2 & L2 & R2).
    exists (output :: outputs), h2. unfold bind. rewrite E1, E2. simpl.
    rewrite <- app_assoc. simpl. repeat split; [congruence | lia].
Qed.

Lemma tool_entries_ids (tcs : list json) :
  forall outputs, length outputs = length tcs ->
    entry_ids (tool_entries tcs outputs) = map tool_call_id tcs /\
    entry_roles (tool_entries tcs outputs) = map (fun _ => JStr "tool") tcs.
Proof.
  induction tcs as [|tc tcs IH]; intros [|output outputs] L; simpl in *; try discriminate; auto.
  injection L as L. destruct (IH outputs L) as [Hids Hroles].
  unfold entry_ids, entry_roles in *. simpl. rewrite Hids, Hroles. auto.
Qed.

(** ** One pass of the loop *)

Lemma call_groq_api_run (env : environment) (ms ts : list json) (req payload : json) (h : history) :
  build_payload ms ts req = Ok payload ->
  _call_groq_api env ms ts req h =
  (Ok (usable (requests_post env h payload)), h ++ [Post payload (requests_post env h payload)]).
Proof. intros Hp. unfold _call_groq_api, bind, lift. rewrite Hp. reflexivity. Qed.

Lemma call_groq_api_raises (env : environment) (ms ts : list json) (req : json) (e : exn) (h : history) :
  build_payload ms ts req = Raise e -> _call_groq_api env ms ts req h = (Raise e, h).
Proof. intros Hp. unfold _call_groq_api, bind, lift. rewrite Hp. reflexivity. Qed.

Lemma loop_body_run (env : environment) (ts : list json) (req payload : json) (st : locals)
    (h : history) :
  build_payload (conversation_messages st) ts req = Ok payload ->
  let h1 := h ++ [thinking (iteration st + 1)] in
  let outcome := requests_post env h1 payload in
  loop_body env ts req st h =
  inspect_response env st (iteration st + 1) (usable outcome) (h1 ++ [Post payload outcome]).
Proof.
  intros Hp h1 outcome. unfold loop_body, bind at 1.
  change (_send_progress_update _ true h) with (Ok tt, h1).
  cbv beta iota. unfold bind at 1. fold h1.
  rewrite (call_groq_api_run env _ ts req payload h1 Hp). reflexivity.
Qed.

Lemma loop_body_no_payload (env : environment) (ts : list json) (req : json) (st : locals)
    (h : history) (e : exn) :
  build_payload (conversation_messages st) ts req = Raise e ->
  loop_body env ts req st h = (Raise e, h ++ [thinking (iteration st + 1)]).
Proof.
  intros Hp. unfold loop_body, bind at 1.
  change (_send_progress_update _ true h) with (Ok tt, h ++ [thinking (iteration st + 1)]).
  cbv beta iota. unfold bind at 1.
  rewrite (call_groq_api_raises env _ ts req e _ Hp). reflexivity.
Qed.

Lemma failed_unusable (outcome : post_outcome) : failed outcome = true -> usable outcome = JNull.
Proof.
  destruct outcome as [code [body|]| |]; simpl; auto.
  - rewrite orb_false_r. intros H. apply negb_true_iff in H. rewrite H. reflexivity.
  - intros _. destruct (code =? 200)%Z; reflexivity.
Qed.

Lemma message_of_truthy (response m : json) : message_of response = Ok m -> truthy response = true.
Proof.
  destruct response as [| | | | | |o]; simpl; try discriminate.
  destruct o; simpl; [discriminate | reflexivity].
Qed.

Lemma get_found (m : json) (k : string) (v : json) :
  get m k JNull = Ok v -> truthy v = true -> getitem m k = Ok v.
Proof.
  destruct m as [| | | | | |o]; simpl; try discriminate.
  destruct (assoc k o) as [x|]; intros E; inversion E; subst; simpl; [reflexivity | discriminate].
Qed.

Lemma get_total (m : json) (k : string) (d v : json) (k' : string) (d' : json) :
  get m k d = Ok v -> exists v', get m k' d' = Ok v'.
Proof. destruct m; simpl; try discriminate. eauto. Qed.

(** The backend gave nothing usable: the pass breaks with the conversation
    as it was and [response] bound to [None]. *)
Lemma inspect_nothing (env : environment) (st : locals) (n : nat) (h : history) :
  inspect_response env st n JNull h =
  (Ok (Break, {| conversation_messages := conversation_messages st;
                 iteration := n;
                 total_tool_calls := total_tool_calls st;
                 response := Some JNull |}), h).
Proof. reflexivity. Qed.

(** The response carries no tool call: the assistant entry is appended and
    the pass breaks; nothing is written, called or executed. *)
Lemma inspect_final (env : environment) (st : locals) (n : nat) (r : json) (h : history) :
  no_tool_calls r = true ->
  exists m content calls,
    message_of r = Ok m /\ get m "content" (JStr "") = Ok content /\
    inspect_response env st n r h =
    (Ok (Break, {| conversation_messages :=
                     conversation_messages st ++
                     [JObj [("role", JStr "assistant"); ("content", content); ("tool_calls", calls)]];
                   iteration := n;
                   total_tool_calls := total_tool_calls st;
                   response := Some r |}), h).
Proof.
  unfold no_tool_calls, requested. intros H. apply andb_prop in H. destruct H as [Ht H].
  destruct (message_of r) as [m|] eqn:Em; simpl in H; [|discriminate].
  destruct (get m "tool_calls" JNull) as [calls|] eqn:Ec; [|discriminate].
  destruct (get_total m "tool_calls" JNull calls "content" (JStr "") Ec) as [content Econtent].
  exists m, content, calls. repeat split; auto.
  unfold inspect_response. rewrite Ht. simpl. unfold bind, lift. rewrite Em, Econtent, Ec.
  apply negb_true_iff in H. rewrite H. reflexivity.
Qed.

Lemma names_of_ok_calls (env : environment) (tcs : list json) :
  forallb (tool_call_ok env) tcs = true ->
  exists names tool_list,
    rmap (fun tc => f <~ getitem tc "function" ;; getitem f "name") tcs = Ok names /\
    join_values ", " names = Ok tool_list.
Proof.
  unfold join_values.
  induction tcs as [|tc tcs IH]; simpl; intros H.
  - exists [], ""%string. auto.
  - apply andb_prop in H. destruct H as [Htc Htcs].
    destruct (IH Htcs) as (names & tool_list & En & Ej).
    unfold tool_call_ok in Htc.
    destruct (getitem tc "function") as [f|] eqn:Ef; simpl in *; [|discriminate].
    destruct (getitem f "name") as [name|] eqn:Ename; simpl in *; [|discriminate].
    destruct name as [| | | |s| |]; simpl in *; try discriminate.
    rewrite En. exists (JStr s :: names). simpl.
    destruct (rmap as_str names) as [ss|]; simpl in *; [|discriminate].
    eexists; split; reflexivity.
Qed.

(** The response asks for tools: the assistant entry and one [tool] entry per
    request are appended and the loop goes on; no backend call is made. *)
Lemma inspect_tools (env : environment) (st : locals) (n : nat) (r : json) (h : history) :
  asks_for_tools env r = true ->
  exists m content tcs outputs h',
    message_of r = Ok m /\ get m "content" (JStr "") = Ok content /\
    requested r = Ok (JList tcs) /\ length outputs = length tcs /\
    inspect_response env st n r h =
    (Ok (Continue, {| conversation_messages :=
                        (conversation_messages st ++
                         [JObj [("role", JStr "assistant"); ("content", content);
                                ("tool_calls", JList tcs)]]) ++ tool_entries tcs outputs;
                      iteration := n;
                      total_tool_calls := total_tool_calls st + length tcs;
                      response := Some r |}), h') /\
    backend_calls h' = backend_calls h /\
    tool_runs h' = tool_runs h + length tcs.
Proof.
  unfold asks_for_tools, requested. intros H.
  destruct (message_of r) as [m|] eqn:Em; simpl in H; [|discriminate].
  destruct (get m "tool_calls" JNull) as [calls|] eqn:Ec; [|discriminate].
  destruct calls as [| | | | |tcs|]; try discriminate.
  destruct tcs as [|tc rest]; [discriminate|].
  change (forallb (tool_call_ok env) (tc :: rest) = true) in H.
  remember (tc :: rest) as tcs eqn:Etcs.
  assert (Htruthy : truthy (JList tcs) = true) by (subst tcs; reflexivity).
  destruct (get_total m "tool_calls" JNull _ "content" (JStr "") Ec) as [content Econtent].
  destruct (names_of_ok_calls env tcs H) as (names & tool_list & En & Ej).
  pose (conv := conversation_messages st ++
                [JObj [("role", JStr "assistant"); ("content", content);
                       ("tool_calls", JList tcs)]]).
  pose (h1 := h ++ [Frame "content_block_delta"
                      (text_delta ("🔧 Executing " ++ tool_list ++ "...")%string)]).
  destruct (run_tool_calls_ok env (length tcs) tcs 0 conv h1 H) as (outputs & h' & Erun & Hlen & Hruns).
  exists m, content, tcs, outputs, h'.
  simpl. repeat split; auto.
  - unfold inspect_response. rewrite (message_of_truthy r m Em). simpl.
    unfold bind, lift. rewrite Em, Econtent, Ec, Htruthy.
    rewrite (get_found m "tool_calls" _ Ec Htruthy). simpl. rewrite En, Ej.
    change (_send_progress_update _ true h) with (Ok tt, h1).
    cbv beta iota. fold conv.
    match goal with
    | |- context [run_tool_calls env _ 0 tcs conv ?x] => change x with h1
    end.
    rewrite Erun. reflexivity.
  - destruct (run_tool_calls_quiet env (length tcs) tcs 0 conv h1) as (es & Ees & Hq).
    rewrite Erun in Ees. simpl in Ees. subst h'. unfold h1.
    rewrite !backend_calls_app, (quiet_no_calls es Hq). simpl. lia.
  - rewrite Hruns. unfold h1. rewrite tool_runs_app. simpl. lia.
Qed.

(** ** The whole loop *)

Lemma tool_loop_pass (env : environment) (fuel : nat) (ts : list json) (req : json) (st : locals) :
  tool_loop env (S fuel) ts req st =
  if (iteration st <? MAX_TOOL_ITERATIONS)%nat then
    r <- loop_body env ts req st ;;
    match r with
    | (Continue, st') => tool_loop env fuel ts req st'
    | (Break, st') => ret st'
    end
  else ret st.
Proof. reflexivity. Qed.

Lemma options_ok_payload (req : json) (ms ts : list json) :
  options_ok req = true -> exists payload, build_payload ms ts req = Ok payload.
Proof.
  unfold options_ok, build_payload.
  destruct (get req "max_tokens" (JInt 4096)) as [requested|]; simpl; [|discriminate].
  destruct (min_with requested 16384) as [max_tokens|]; simpl; [|discriminate].
  destruct (get req "temperature" (JFloat (Finite (7 # 10)))) as [temperature|]; simpl; [|discriminate].
  intros _. eexists. reflexivity.
Qed.

Lemma run_conversation_translated (env : environment) (req : json) (conv ts : list json)
    (h : history) :
  translate env req = Ok (conv, ts) ->
  run_conversation env req h =
  tool_loop env MAX_TOOL_ITERATIONS ts req (initial conv) (h ++ [starting]).
Proof.
  unfold translate, run_conversation, bind, lift.
  destruct (get req "messages" (JList [])) as [ims|]; simpl; [|discriminate].
  destruct (get req "tools" (JList [])) as [tls|]; simpl; [|discriminate].
  destruct (_convert_messages_to_openai env ims) as [conv'|]; simpl; [|discriminate].
  destruct (_convert_tools_to_openai tls) as [ts'|]; simpl; [|discriminate].
  intros E. inversion E; subst. reflexivity.
Qed.

Lemma run_conversation_untranslated (env : environment) (req : json) (e : exn) (h : history) :
  translate env req = Raise e -> exists h', run_conversation env req h = (Raise e, h').
Proof.
  unfold translate, run_conversation, bind, lift.
  destruct (get req "messages" (JList [])) as [ims|]; simpl;
    [|intros E; inversion E; eauto].
  destruct (get req "tools" (JList [])) as [tls|]; simpl;
    [|intros E; inversion E; eauto].
  destruct (_convert_messages_to_openai env ims) as [conv'|]; simpl;
    [|intros E; inversion E; eauto].
  destruct (_convert_tools_to_openai tls) as [ts'|]; simpl;
    [discriminate | intros E; inversion E; eauto].
Qed.

(** While every reply asks for tools the loop uses up all the passes that
    are left, one backend call each. *)
Lemma tool_loop_keeps_going (env : environment) (ts : list json) (req : json) :
  every_reply_asks_for_tools env ->
  options_ok req = true ->
  forall (fuel : nat) (st : locals) (h : history),
    iteration st + fuel <= MAX_TOOL_ITERATIONS ->
    exists st' h',
      tool_loop env fuel ts req st h = (Ok st', h') /\
      iteration st' = iteration st + fuel /\
      backend_calls h' = backend_calls h + fuel.
Proof.
  intros Hasks Hopts.
  induction fuel as [|fuel IH]; intros st h Hle.
  - exists st, h. simpl. repeat split; lia.
  - rewrite tool_loop_pass.
    destruct (Nat.ltb_spec (iteration st) MAX_TOOL_ITERATIONS) as [Hlt|Hge]; [|lia].
    destruct (options_ok_payload req (conversation_messages st) ts Hopts) as [payload Hp].
    unfold bind at 1. rewrite (loop_body_run env ts req payload st h Hp). cbv zeta.
    set (h1 := h ++ [thinking (iteration st + 1)]).
    set (outcome := requests_post env h1 payload).
    destruct (inspect_tools env st (iteration st + 1) (usable outcome)
                (h1 ++ [Post payload outcome]) (Hasks h1 payload))
      as (m & content & tcs & outputs & h2 & _ & _ & _ & _ & Erun & Hcalls & _).
    rewrite Erun.
    match goal with
    | |- context [tool_loop env fuel ts req ?s h2] =>
        destruct (IH s h2) as (st' & h' & E' & Hit & Hc); [simpl; lia|]
    end.
    exists st', h'. rewrite E'. simpl in Hit. repeat split; [lia|].
    rewrite Hc, Hcalls. unfold h1. rewrite !backend_calls_app. simpl. lia.
Qed.

(** ** C6 *)




(** ** C10 *)

(** C10.  If the first backend response carries a message with zero tool
    calls, the loop returns after exactly one iteration: one backend call,
    no tool executed, no tool call counted. *)
Theorem C10_no_tools_one_iteration (env : environment) (req reply : json) (h : history) :
  (exists conv ts, translate env req = Ok (conv, ts)) ->
  options_ok req = true ->
  first_reply_after env h reply ->
  no_tool_calls reply = true ->
  exists st h',
    run_conversation env req h = (Ok st, h') /\
    iteration st = 1 /\
    total_tool_calls st = 0 /\
    backend_calls h' = backend_calls h + 1 /\
    tool_runs h' = tool_runs h.
Proof.
  intros (conv & ts & Htr) Hopts Hfirst Hnone.
  rewrite (run_conversation_translated env req conv ts h Htr).
  change MAX_TOOL_ITERATIONS with (S 14). rewrite tool_loop_pass.
  change (iteration (initial conv) <? MAX_TOOL_ITERATIONS)%nat with true. cbv iota.
  destruct (options_ok_payload req conv ts Hopts) as [payload Hp].
  unfold bind at 1.
  rewrite (loop_body_run env ts req payload (initial conv) (h ++ [starting]) Hp). cbv zeta.
  rewrite <- app_assoc.
  rewrite (Hfirst ([starting] ++ [thinking (iteration (initial conv) + 1)]) payload eq_refl).
  match goal with
  | |- context [inspect_response env ?s ?n reply ?hh] =>
      destruct (inspect_final env s n reply hh Hnone) as (m & content & calls & _ & _ & E)
  end.
  rewrite E. eexists. eexists. split; [reflexivity|].
  simpl. rewrite !backend_calls_app, !tool_runs_app. simpl. repeat split; lia.
Qed.

Lemma C10_no_tools_one_iteration_witness :
  exists st h',
    run_conversation (Sample.surroundings Sample.says_hello Sample.listing)
      (Sample.list_files false) [] = (Ok st, h') /\
    iteration st = 1 /\
    total_tool_calls st = 0 /\
    backend_calls h' = backend_calls [] + 1 /\
    tool_runs h' = tool_runs [].
Proof.
  apply (C10_no_tools_one_iteration
           (Sample.surroundings Sample.says_hello Sample.listing)
           (Sample.list_files false)
           (usable (Sample.reply (Sample.plain "Hello there")))).
  - eexists. eexists. reflexivity.
  - reflexivity.
  - intros es payload _. reflexivity.
  - reflexivity.
Defined.

(** ** C1 *)

(** When [response] is bound to [None], building the final response raises:
    [None] has no [get]. *)
Lemma build_final_response_none (message_id : string) (st : locals) :
  response st = Some JNull -> exists e, build_final_response message_id st = Raise e.
Proof.
  intros Hr. unfold build_final_response.
  destruct (last_item (conversation_messages st)) as [final_message|e]; simpl; [|eauto].
  destruct (get final_message "content" (JStr "")) as [text|e]; simpl; [|eauto].
  rewrite Hr. simpl. eauto.
Qed.

(** When every backend call fails, the loop either raises or breaks in its
    first pass with [response] bound to [None]. *)
Lemma run_conversation_failing (env : environment) (req : json) (h : history) :
  every_call_fails env ->
  (exists e h', run_conversation env req h = (Raise e, h')) \/
  (exists st h', run_conversation env req h = (Ok st, h') /\ response st = Some JNull /\
                 backend_calls h' = backend_calls h + 1).
Proof.
  intros Hfail.
  destruct (translate env req) as [[conv ts]|e] eqn:Htr.
  - rewrite (run_conversation_translated env req conv ts h Htr).
    change MAX_TOOL_ITERATIONS with (S 14). rewrite tool_loop_pass.
    change (iteration (initial conv) <? MAX_TOOL_ITERATIONS)%nat with true. cbv iota.
    destruct (build_payload (conversation_messages (initial conv)) ts req) as [payload|e] eqn:Hp.
    + right. unfold bind at 1.
      rewrite (loop_body_run env ts req payload (initial conv) (h ++ [starting]) Hp). cbv zeta.
      rewrite (failed_unusable _ (Hfail _ payload)), inspect_nothing.
      eexists. eexists. split; [reflexivity|]. split; [reflexivity|].
      rewrite !backend_calls_app. simpl. lia.
    + left. unfold bind at 1. rewrite (loop_body_no_payload env ts req (initial conv) (h ++ [starting]) e Hp).
      eauto.
  - left. destruct (run_conversation_untranslated env req e h Htr) as [h' E]. eauto.
Qed.

(** C1 (the code departs from it).  When every backend call fails, a
    non-streaming request does not produce a response object: building the
    final response raises, and the handler answers with status 500. *)
Theorem C1_backend_failure_is_http_error (env : environment) (req : json) (h : history) :
  every_call_fails env ->
  exists e h',
    _execute_complete_conversation env req h = (Raise e, h') /\
    handle_complete_conversation env req h = (Ok tt, h' ++ [SendError 500 (exn_str env e)]).
Proof.
  intros Hfail.
  assert (Hexec : exists e h', _execute_complete_conversation env req h = (Raise e, h')).
  { unfold _execute_complete_conversation, new_message_id, _process_conversation_with_streaming.
    unfold bind at 1. unfold bind at 1. unfold past, ret. cbv beta iota. unfold bind at 1.
    destruct (run_conversation_failing env req h Hfail)
      as [(e & h' & E)|(st & h' & E & Hr & _)]; rewrite E.
    - eauto.
    - destruct (build_final_response_none ("msg_" ++ uuid_hex8 env h) st Hr) as [e Ee].
      unfold lift. rewrite Ee. eauto. }
  destruct Hexec as (e & h' & E). exists e, h'. split; [exact E|].
  unfold handle_complete_conversation, try_except, bind at 1. rewrite E. reflexivity.
Qed.

Lemma C1_backend_failure_is_http_error_witness :
  exists e h',
    _execute_complete_conversation (Sample.surroundings Sample.times_out Sample.listing)
      (Sample.list_files false) [] = (Raise e, h') /\
    handle_complete_conversation (Sample.surroundings Sample.times_out Sample.listing)
      (Sample.list_files false) [] =
    (Ok tt, h' ++ [SendError 500 (exn_str (Sample.surroundings Sample.times_out Sample.listing) e)]).
Proof.
  apply (C1_backend_failure_is_http_error
           (Sample.surroundings Sample.times_out Sample.listing) (Sample.list_files false) []).
  intros h payload. reflexivity.
Defined.

(** ** C2 *)

(** C2 (the code departs from it).  A backend that asks for a directory
    listing on every call drives the loop to its ceiling; the last assistant
    entry then says "step 14", but the final answer text is the content of
    the last [tool] entry, the listing. *)
Theorem C2_ceiling_answers_with_tool_output :
  exists st h',
    run_conversation (Sample.surroundings Sample.keeps_listing Sample.listing)
      (Sample.list_files false) [] = (Ok st, h') /\
    iteration st = MAX_TOOL_ITERATIONS /\
    last_assistant_text (conversation_messages st) = Some (JStr "step 14") /\
    last_item (conversation_messages st) =
      Ok (tool_entry (Sample.call "call_14" "LS" "{}") "- /work/") /\
    build_final_response "msg_0a1b2c3d" st =
      Ok (final_response_of "msg_0a1b2c3d" (JStr "- /work/") (JInt 7) (JInt 3)).
Proof.
  eexists. eexists. split; [vm_compute; reflexivity|].
  repeat split; vm_compute; reflexivity.
Qed.

(** ** C3 *)

Lemma bind_extends {A B} (P : event -> bool) (m : M A) (k : A -> M B) (h : history) :
  (forall a, emits P (k a)) -> exists es, snd (bind m k h) = snd (m h) ++ es.
Proof.
  intros Hk. unfold bind. destruct (m h) as [[a|e] h1]; simpl.
  - destruct (Hk a h1) as (es & E & _). eauto.
  - exists []. rewrite app_nil_r. reflexivity.
Qed.

Lemma try_extends {A} (P : event -> bool) (m : M A) (handler : exn -> M A) (h : history) :
  (forall e, emits P (handler e)) -> exists es, snd (try_except m handler h) = snd (m h) ++ es.
Proof.
  intros Hk. unfold try_except. destruct (m h) as [[a|e] h1]; simpl.
  - exists []. rewrite app_nil_r. reflexivity.
  - destruct (Hk e h1) as (es & E & _). eauto.
Qed.

(** A request that is a dict gets the first progress frame written. *)
Lemma run_conversation_starts (env : environment) (o : list (string * json)) (h : history) :
  exists es, snd (run_conversation env (JObj o) h) = h ++ starting :: es.
Proof.
  unfold run_conversation. unfold bind at 1. unfold lift at 1. simpl get. cbv beta iota.
  unfold bind at 1. unfold lift at 1. cbv beta iota. unfold bind at 1.
  change (_send_progress_update "🔄 Starting..." true h) with (Ok tt, h ++ [starting]).
  cbv beta iota.
  match goal with
  | |- exists es, snd (?m (h ++ [starting])) = _ =>
      assert (Hm : emits loop_event m) by (emits_auto; apply tool_loop_loop);
      destruct (Hm (h ++ [starting])) as (es & E & _)
  end.
  exists es. rewrite E, <- app_assoc. reflexivity.
Qed.

(** C3 (the code departs from it).  A non-streaming request runs the same
    loop with the same emitter: its output starts with the progress frame
    "Starting...", written before the status line and the JSON body. *)
Theorem C3_complete_conversation_writes_frames (env : environment) (o : list (string * json))
    (h : history) :
  exists rest,
    frames (snd (handle_complete_conversation env (JObj o) h)) =
    frames h ++ ("content_block_delta", text_delta "🔄 Starting...") :: rest.
Proof.
  unfold handle_complete_conversation.
  destruct (try_extends (fun _ => true)
              (final_response <- _execute_complete_conversation env (JObj o) ;;
               emit (SendResponse 200 "application/json") ;; emit (Body final_response))
              (fun e => emit (SendError 500 (exn_str env e))) h) as (es1 & E1).
  { intros e. apply emits_emit. reflexivity. }
  rewrite E1.
  destruct (bind_extends (fun _ => true) (_execute_complete_conversation env (JObj o))
              (fun final_response =>
                 emit (SendResponse 200 "application/json") ;; emit (Body final_response)) h)
    as (es2 & E2).
  { intros a. emits_auto. }
  rewrite E2.
  unfold _execute_complete_conversation, new_message_id. unfold bind at 1. unfold bind at 1.
  unfold past, ret. cbv beta iota. unfold _process_conversation_with_streaming.
  destruct (bind_extends (fun _ => true) (run_conversation env (JObj o))
              (fun st => lift (build_final_response ("msg_" ++ uuid_hex8 env h) st)) h)
    as (es3 & E3).
  { intros a. apply emits_lift. }
  rewrite E3.
  destruct (run_conversation_starts env o h) as (es4 & E4). rewrite E4.
  rewrite !frames_app. simpl. rewrite <- !app_assoc. simpl. eauto.
Qed.

(** ** C4 *)

Lemma returns_lift {A} (Q : A -> Prop) (r : result A) :
  (forall a, r = Ok a -> Q a) -> returns Q (lift r).
Proof. intros Hr h a h' E. unfold lift in E. inversion E; subst. auto. Qed.

Lemma build_final_response_shape (message_id : string) (st : locals) (v : json) :
  build_final_response message_id st = Ok v ->
  exists text input_tokens output_tokens,
    v = final_response_of message_id text input_tokens output_tokens.
Proof.
  unfold build_final_response.
  destruct (last_item (conversation_messages st)) as [final_message|]; simpl; [|discriminate].
  destruct (get final_message "content" (JStr "")) as [text|]; simpl; [|discriminate].
  destruct (response st) as [r|]; simpl; [|discriminate].
  destruct (get r "usage" (JObj [])) as [usage|]; simpl; [|discriminate].
  destruct (get usage "prompt_tokens" (JInt 100)) as [i|]; simpl; [|discriminate].
  destruct (get usage "completion_tokens" (JInt 50)) as [o|]; simpl; [|discriminate].
  intros E. inversion E. eauto.
Qed.

Lemma process_returns_message (env : environment) (req : json) (message_id : string) :
  returns (fun v => exists text input_tokens output_tokens,
                      v = final_response_of message_id text input_tokens output_tokens)
          (_process_conversation_with_streaming env req message_id).
Proof.
  unfold _process_conversation_with_streaming.
  apply returns_bind. intros st. apply returns_lift. apply build_final_response_shape.
Qed.

Lemma send_deltas_quiet (texts : list string) : emits quiet_event (send_deltas texts).
Proof.
  induction texts as [|t texts IH]; simpl.
  - apply emits_ret.
  - apply emits_bind; [apply send_event_delta; reflexivity | intros _; exact IH].
Qed.

Lemma stream_text_quiet (text : json) : emits quiet_event (_stream_text_naturally text).
Proof.
  unfold _stream_text_naturally.
  emits_auto; try (apply send_event_delta; reflexivity); apply send_deltas_quiet.
Qed.

Lemma stream_conversation_run (env : environment) (req : json) (message_id : string) (h : history) :
  exists es,
    forallb loop_event es = true /\
    match stream_conversation env req message_id h with
    | (Ok _, h') =>
        exists usage,
          h' = h ++ es ++ [Frame "content_block_stop" content_block_stop_data;
                           Frame "message_delta" (message_delta_data (JStr "end_turn") usage);
                           Frame "message_stop" message_stop_data]
    | (Raise _, h') => h' = h ++ es
    end.
Proof.
  unfold stream_conversation. unfold bind at 1.
  destruct (process_loop env req message_id h) as (es1 & E1 & F1).
  pose proof (process_returns_message env req message_id h) as Hshape.
  destruct (_process_conversation_with_streaming env req message_id h) as [[final|e] h1];
    simpl in E1; subst h1; [|exists es1; auto].
  destruct (Hshape final _ eq_refl) as (text & i & o & Efinal). subst final.
  unfold bind at 1.
  change (lift (_extract_text_from_response (final_response_of message_id text i o)) (h ++ es1))
    with (Ok text, h ++ es1).
  cbv beta iota. unfold bind at 1.
  destruct (stream_text_quiet text (h ++ es1)) as (es2 & E2 & F2).
  assert (Hloop : forallb loop_event (es1 ++ es2) = true).
  { rewrite forallb_app, F1. simpl. rewrite forallb_forall in *.
    intros x Hx. apply quiet_is_loop. auto. }
  destruct (_stream_text_naturally text (h ++ es1)) as [[[]|e] h2]; simpl in E2; subst h2.
  - exists (es1 ++ es2). split; [exact Hloop|].
    exists (JObj [("input_tokens", i); ("output_tokens", o)]).
    rewrite <- !app_assoc. reflexivity.
  - exists (es1 ++ es2). split; [exact Hloop|]. rewrite app_assoc. reflexivity.
Qed.

Lemma occurrences_app (t : string) (fs gs : list (string * json)) :
  occurrences t (fs ++ gs) = occurrences t fs + occurrences t gs.
Proof. unfold occurrences. rewrite filter_app, length_app. reflexivity. Qed.

Lemma occurrences_deltas (t : string) (fs : list (string * json)) :
  Forall (fun f => fst f = "content_block_delta"%string) fs ->
  String.eqb "content_block_delta" t = false ->
  occurrences t fs = 0.
Proof.
  intros Hfs Ht. unfold occurrences. induction Hfs as [|f fs Hf _ IH]; simpl; [reflexivity|].
  rewrite Hf, Ht. exact IH.
Qed.

(** C4.  The frames of a streaming request are: one [message_start], one
    [content_block_start], then only [content_block_delta] frames, and at the
    end [content_block_stop], [message_delta] (with stop reason and usage),
    [message_stop] when the work inside the [try] returned, or a single
    [error] frame when it raised.  No second [message_start] or
    [content_block_start] occurs among them. *)
Theorem C4_frame_order (env : environment) (req : json) (h : history) :
  let h0 := h ++ [SendResponse 200 "text/event-stream"] in
  let message_id := ("msg_" ++ uuid_hex8 env h0)%string in
  let opened := h0 ++ [Frame "message_start" (message_start_data message_id);
                       Frame "content_block_start" content_block_start_data] in
  exists deltas closing,
    frames (snd (handle_streaming_conversation env req h)) =
      frames h ++ ("message_start", message_start_data message_id)
                  :: ("content_block_start", content_block_start_data)
                  :: deltas ++ closing /\
    Forall (fun f => fst f = "content_block_delta") deltas /\
    match fst (stream_conversation env req message_id opened) with
    | Ok _ => exists usage, closing = closing_frames usage
    | Raise e => closing = [("error", error_data (exn_str env e))]
    end /\
    occurrences "message_start"
      (("message_start", message_start_data message_id)
         :: ("content_block_start", content_block_start_data) :: deltas ++ closing) = 1 /\
    occurrences "content_block_start"
      (("message_start", message_start_data message_id)
         :: ("content_block_start", content_block_start_data) :: deltas ++ closing) = 1.
Proof.
  assert (Hcount : forall mid deltas closing,
            Forall (fun f => fst f = "content_block_delta"%string) deltas ->
            occurrences "message_start" closing = 0 ->
            occurrences "content_block_start" closing = 0 ->
            occurrences "message_start"
              (("message_start", message_start_data mid)
                 :: ("content_block_start", content_block_start_data) :: deltas ++ closing) = 1 /\
            occurrences "content_block_start"
              (("message_start", message_start_data mid)
                 :: ("content_block_start", content_block_start_data) :: deltas ++ closing) = 1).
  { intros mid deltas closing Hd H1 H2.
    change (("message_start", message_start_data mid)
              :: ("content_block_start", content_block_start_data) :: deltas ++ closing)
      with ([("message_start", message_start_data mid);
             ("content_block_start", content_block_start_data)] ++ deltas ++ closing).
    rewrite !occurrences_app, H1, H2.
    rewrite !(occurrences_deltas _ deltas Hd) by reflexivity. split; reflexivity. }
  intros h0 message_id opened.
  assert (Hbody :
    (mid <- new_message_id env ;;
     _send_event "message_start" (message_start_data mid) ;;
     _send_event "content_block_start" content_block_start_data ;;
     stream_conversation env req mid) h0 = stream_conversation env req message_id opened).
  { cbv beta iota delta [bind new_message_id past ret _send_event emit].
    unfold opened. rewrite <- app_assoc. reflexivity. }
  unfold handle_streaming_conversation. unfold bind at 1. unfold emit at 1. cbv beta iota.
  fold h0. unfold try_except. rewrite Hbody.
  destruct (stream_conversation_run env req message_id opened) as (es & Hes & Hrun).
  destruct (stream_conversation env req message_id opened) as [[[]|e] h'].
  - destruct Hrun as (usage & E). subst h'.
    exists (frames es), (closing_frames usage). simpl fst. simpl snd.
    split; [|split; [apply loop_frames_are_deltas; exact Hes | split; [eauto|]]].
    + unfold opened, h0. rewrite !frames_app. simpl. rewrite <- !app_assoc. reflexivity.
    + apply Hcount; [apply loop_frames_are_deltas; exact Hes | reflexivity | reflexivity].
  - subst h'. exists (frames es), [("error", error_data (exn_str env e))]. simpl fst.
    split; [|split; [apply loop_frames_are_deltas; exact Hes | split; [reflexivity|]]].
    + unfold _send_error_event, _send_event, emit. simpl snd.
      unfold opened, h0. rewrite !frames_app. simpl. rewrite <- !app_assoc. reflexivity.
    + apply Hcount; [apply loop_frames_are_deltas; exact Hes | reflexivity | reflexivity].
Qed.

(** ** C5 *)


Lemma tool_outputs_app (h1 h2 : history) :
  tool_outputs (h1 ++ h2) = tool_outputs h1 ++ tool_outputs h2.
Proof.
  induction h1 as [|e h1 IH]; simpl; [reflexivity|].
  destruct e; simpl; rewrite ?IH; reflexivity.
Qed.

Lemma tools_run_app (h1 h2 : history) : tools_run (h1 ++ h2) = tools_run h1 ++ tools_run h2.
Proof.
  induction h1 as [|e h1 IH]; simpl; [reflexivity|].
  destruct e; simpl; rewrite ?IH; reflexivity.
Qed.

Lemma runs_faithful_app (env : environment) (es1 es2 : history) :
  forall h,
    runs_faithful env h (es1 ++ es2) =
    runs_faithful env h es1 && runs_faithful env (h ++ es1) es2.
Proof.
  induction es1 as [|e es1 IH]; intros h; simpl.
  - rewrite app_nil_r. reflexivity.
  - rewrite IH, <- app_assoc, andb_assoc. reflexivity.
Qed.

(** What executing one well-formed request does: at most a progress frame,
    then the execution of the tool named on the parsed arguments, whose
    result text becomes the content of the entry. *)
Lemma run_tool_call_run (env : environment) (count : nat) (conv : list json) (i : nat)
    (tc : json) (h : history) :
  tool_call_ok env tc = true ->
  exists es output,
    run_tool_call env count conv i tc h = (Ok (conv ++ [tool_entry tc output]), h ++ es) /\
    tool_outputs es = [output] /\
    tools_run es = [(tool_call_name tc, tool_call_args env tc)] /\
    runs_faithful env h es = true /\
    backend_calls es = 0.
Proof.
  unfold tool_call_ok, tool_call_name, tool_call_args.
  destruct (getitem tc "function") as [f|] eqn:Ef; simpl; [|discriminate].
  destruct (getitem f "name") as [name|] eqn:En; simpl; [|discriminate].
  destruct (as_str name) as [n|] eqn:Es; simpl; [|discriminate].
  destruct (getitem f "arguments") as [a|] eqn:Ea; simpl; [|discriminate].
  destruct (loads env a) as [args|] eqn:El; simpl; [|discriminate].
  destruct (getitem tc "id") as [id|] eqn:Ei; [|discriminate].
  intros _. unfold run_tool_call, bind, lift. rewrite Ef. simpl. rewrite En, Ea. simpl.
  rewrite El, Ei. unfold tool_entry, tool_call_id. rewrite Ei.
  destruct (1 <? count)%nat; simpl.
  - eexists [_; _], _. rewrite <- app_assoc. simpl.
    split; [reflexivity|]. split; [reflexivity|]. split; [reflexivity|].
    split; [|reflexivity]. unfold runs_faithful. rewrite String.eqb_refl. reflexivity.
  - eexists [_], _.
    split; [reflexivity|]. split; [reflexivity|]. split; [reflexivity|].
    split; [|reflexivity]. unfold runs_faithful. rewrite String.eqb_refl. reflexivity.
Qed.

Lemma run_tool_calls_run (env : environment) (count : nat) (tcs : list json) :
  forall (i : nat) (conv : list json) (h : history),
    forallb (tool_call_ok env) tcs = true ->
    exists es,
      run_tool_calls env count i tcs conv h =
        (Ok (conv ++ tool_entries tcs (tool_outputs es)), h ++ es) /\
      length (tool_outputs es) = length tcs /\
      tools_run es = map (fun tc => (tool_call_name tc, tool_call_args env tc)) tcs /\
      runs_faithful env h es = true /\
      backend_calls es = 0.
Proof.
  induction tcs as [|tc tcs IH]; intros i conv h Hok; simpl in *.
  - exists []. rewrite !app_nil_r. auto.
  - apply andb_prop in Hok. destruct Hok as [Htc Htcs].
    destruct (run_tool_call_run env count conv i tc h Htc)
      as (es1 & output & E1 & O1 & T1 & F1 & B1).
    destruct (IH (S i) (conv ++ [tool_entry tc output]) (h ++ es1) Htcs)
      as (es2 & E2 & L2 & T2 & F2 & B2).
    exists (es1 ++ es2). unfold bind. rewrite E1, E2.
    rewrite tool_outputs_app, tools_run_app, runs_faithful_app, backend_calls_app.
    rewrite O1, T1, T2, F1, F2, B1, B2, <- !app_assoc. simpl.
    repeat split. lia.
Qed.

(** A response with a malformed request makes the pass raise. *)
Lemma run_tool_calls_malformed (env : environment) (count : nat) (tcs : list json) :
  forall (names : list json) (ss : list string) (i : nat) (conv : list json) (h : history),
    rmap (fun tc => f <~ getitem tc "function" ;; getitem f "name") tcs = Ok names ->
    rmap as_str names = Ok ss ->
    forallb (tool_call_ok env) tcs = false ->
    exists e h', run_tool_calls env count i tcs conv h = (Raise e, h').
Proof.
  induction tcs as [|tc tcs IH]; intros names ss i conv h Hnames Hss Hbad; simpl in *;
    [discriminate|].
  destruct (getitem tc "function") as [f|] eqn:Ef; simpl in Hnames; [|discriminate].
  destruct (getitem f "name") as [name|] eqn:En; simpl in Hnames; [|discriminate].
  destruct (rmap (fun tc => f <~ getitem tc "function" ;; getitem f "name") tcs)
    as [names'|] eqn:Hnames'; simpl in Hnames; [|discriminate].
  inversion Hnames; subst names; clear Hnames. simpl in Hss.
  destruct (as_str name) as [n|] eqn:Es; simpl in Hss; [|discriminate].
  destruct (rmap as_str names') as [ss'|] eqn:Hss'; simpl in Hss; [|discriminate].
  destruct (tool_call_ok env tc) eqn:Htc.
  - simpl in Hbad.
    destruct (run_tool_call_run env count conv i tc h Htc) as (es1 & output & E1 & _).
    destruct (IH names' ss' (S i) (conv ++ [tool_entry tc output]) (h ++ es1)
                eq_refl Hss' Hbad) as (e & h' & E).
    exists e, h'. unfold bind. rewrite E1. exact E.
  - clear Hbad IH. unfold tool_call_ok in Htc. rewrite Ef in Htc. simpl in Htc.
    rewrite En in Htc. simpl in Htc. rewrite Es in Htc. simpl in Htc.
    unfold bind at 1. unfold run_tool_call, bind, lift. rewrite Ef. simpl. rewrite En.
    destruct (getitem f "arguments") as [a|e]; simpl in *; [|eauto].
    destruct (loads env a) as [args|e]; simpl in *; [|eauto].
    destruct (getitem tc "id") as [id|e]; [discriminate | eauto].
Qed.

Lemma inspect_malformed (env : environment) (st : locals) (n : nat) (r m : json)
    (tcs : list json) (h : history) :
  message_of r = Ok m ->
  get m "tool_calls" JNull = Ok (JList tcs) ->
  forallb (tool_call_ok env) tcs = false ->
  exists e h', inspect_response env st n r h = (Raise e, h').
Proof.
  intros Em Ec Hbad.
  assert (Htruthy : truthy (JList tcs) = true) by (destruct tcs; [discriminate | reflexivity]).
  destruct (get_total m "tool_calls" JNull _ "content" (JStr "") Ec) as [content Econtent].
  unfold inspect_response. rewrite (message_of_truthy r m Em). simpl.
  unfold bind, lift. rewrite Em, Econtent, Ec, Htruthy.
  rewrite (get_found m "tool_calls" _ Ec Htruthy). simpl.
  destruct (rmap (fun tc => f <~ getitem tc "function" ;; getitem f "name") tcs)
    as [names|e] eqn:Hnames; [|eauto].
  unfold join_values.
  destruct (rmap as_str names) as [ss|e] eqn:Hss; simpl; [|eauto].
  match goal with
  | |- context [run_tool_calls env ?c 0 tcs ?conv ?h1] =>
      destruct (run_tool_calls_malformed env c tcs names ss 0 conv h1 Hnames Hss Hbad)
        as (e & h' & E); rewrite E
  end.
  eauto.
Qed.



(** ** C7 *)

Lemma role_kept (role : json) : (if is_str role "user" then JStr "user" else role) = role.
Proof.
  destruct role as [| | | |s| |]; simpl; try reflexivity.
  destruct (String.eqb_spec s "user"); subst; reflexivity.
Qed.

Lemma rmap_strings (l : list string) : rmap as_str (map JStr l) = Ok l.
Proof. induction l as [|x l IH]; simpl; [reflexivity | rewrite IH; reflexivity]. Qed.

Lemma join_values_strings (sep : string) (l : list string) :
  join_values sep (map JStr l) = Ok (join sep l).
Proof. unfold join_values. rewrite rmap_strings. reflexivity. Qed.

(** The code flattens the content of a tool result as the design says. *)
Lemma block_texts_flattened (env : environment) (blocks : list json) (ts : list string) :
  block_texts blocks = Some ts ->
  rmap (fun c => t <~ get c "text" c ;; Ok (str env t)) blocks = Ok ts.
Proof.
  revert ts. induction blocks as [|block blocks IH]; simpl; intros ts H.
  - inversion H. reflexivity.
  - destruct (block_text block) as [t|] eqn:Eb; [|discriminate].
    destruct (block_texts blocks) as [ts'|]; [|discriminate].
    inversion H; subst. rewrite (IH ts' eq_refl).
    destruct block as [| | | | | |o]; try discriminate. simpl in *.
    destruct (assoc "text" o) as [[| | | |t'| |]|]; try discriminate.
    inversion Eb; subst. reflexivity.
Qed.

Lemma tool_result_text_flattened (env : environment) (o : list (string * json))
    (text : string) :
  flattened (content_of o) = Some text -> tool_result_text env (JObj o) = Ok text.
Proof.
  unfold tool_result_text, content_of. simpl.
  destruct (assoc "content" o) as [content|]; simpl.
  - destruct content as [| | | |s|blocks|]; simpl; try discriminate.
    + intros E. inversion E. reflexivity.
    + destruct (block_texts blocks) as [ts|] eqn:Eb; [|discriminate].
      intros E. inversion E; subst.
      rewrite (block_texts_flattened env blocks ts Eb). reflexivity.
  - intros E. inversion E. reflexivity.
Qed.

(** On well-typed items the parts the code collects are the parts of the
    design, as strings. *)
Lemma text_parts_rendered (env : environment) (items : list json) :
  forallb item_ok items = true ->
  text_parts_of env items = Ok (map JStr (flat_map rendered items)).
Proof.
  induction items as [|item items IH]; simpl; [reflexivity|].
  intros H. apply andb_prop in H. destruct H as [Hitem Hitems].
  rewrite (IH Hitems). clear IH Hitems.
  destruct item as [| | | | | |o]; try discriminate.
  unfold item_ok in Hitem. unfold text_part, rendered. simpl.
  destruct (assoc "type" o) as [ty|]; simpl; [|reflexivity].
  destruct (is_str ty "text").
  - destruct (assoc "text" o) as [[| | | |t| |]|]; simpl in *; try discriminate.
    reflexivity.
  - destruct (is_str ty "tool_result"); [|reflexivity].
    destruct (flattened (content_of o)) as [text|] eqn:Ef; [|discriminate].
    rewrite (tool_result_text_flattened env o text Ef). reflexivity.
Qed.

Lemma convert_message_at_most_one (env : environment) (msg : json) (out : list json) :
  convert_message env msg = Ok out -> length out <= 1.
Proof.
  unfold convert_message.
  destruct (getitem msg "role") as [role|]; simpl; [|discriminate].
  destruct (getitem msg "content") as [content|]; simpl; [|discriminate].
  destruct content as [| | | | |items|];
    try (intros E; inversion E; simpl; lia).
  destruct (text_parts_of env items) as [[|p parts]|]; simpl; try discriminate.
  - intros E. inversion E. simpl. lia.
  - destruct (join_values " " (p :: parts)); simpl; intros E; inversion E. simpl. lia.
Qed.




(** ** C8 *)

Lemma convert_tool_dict (tool : list (string * json)) :
  convert_tool (JObj tool) = Ok (if valid_tool tool then [declaration tool] else []).
Proof.
  unfold convert_tool, valid_tool, declaration, field, has_key. simpl. unfold has_key.
  destruct (assoc "name" tool) as [name|]; simpl; [|reflexivity].
  destruct (assoc "input_schema" tool) as [schema|]; simpl; reflexivity.
Qed.

Lemma convert_tools_dicts (tools : list (list (string * json))) :
  rmap convert_tool (map JObj tools) =
  Ok (map (fun tool => if valid_tool tool then [declaration tool] else []) tools).
Proof.
  induction tools as [|tool tools IH]; simpl; [reflexivity|].
  rewrite convert_tool_dict, IH. reflexivity.
Qed.

Lemma concat_kept (tools : list (list (string * json))) :
  concat (map (fun tool => if valid_tool tool then [declaration tool] else []) tools) =
  map declaration (filter valid_tool tools).
Proof.
  induction tools as [|tool tools IH]; simpl; [reflexivity|].
  destruct (valid_tool tool); simpl; rewrite IH; reflexivity.
Qed.

(** C8.  The conversion keeps exactly the tools that have a name and an
    input schema, in order, each as a function declaration; the declaration
    of a kept tool gives back the tool's name and schema unchanged, and its
    description is the tool's, or the empty string when the tool has none. *)
Theorem C8_tool_conversion (tools : list (list (string * json))) :
  _convert_tools_to_openai (JList (map JObj tools)) = Ok (map declaration (filter valid_tool tools)) /\
  (forall tool,
     valid_tool tool = true ->
     exists name schema,
       getitem (JObj tool) "name" = Ok name /\
       getitem (JObj tool) "input_schema" = Ok schema /\
       declared (declaration tool) = Ok (name, schema) /\
       getitem (declaration tool) "type" = Ok (JStr "function") /\
       (f <~ getitem (declaration tool) "function" ;; getitem f "description") =
       get (JObj tool) "description" (JStr "")).
Proof.
  split.
  - unfold _convert_tools_to_openai. simpl. rewrite convert_tools_dicts. simpl.
    rewrite concat_kept. reflexivity.
  - intros tool Hvalid. unfold valid_tool, has_key in Hvalid.
    apply andb_prop in Hvalid. destruct Hvalid as [Hname Hschema].
    unfold declared, declaration, field. simpl.
    destruct (assoc "name" tool) as [name|]; [|discriminate].
    destruct (assoc "input_schema" tool) as [schema|]; [|discriminate].
    exists name, schema. repeat split; reflexivity.
Qed.

Lemma C8_tool_conversion_witness :
  exists name schema,
    getitem Sample.LS_tool "name" = Ok name /\
    getitem Sample.LS_tool "input_schema" = Ok schema /\
    declared (declaration [("name", JStr "LS"); ("input_schema", JObj [("type", JStr "object")])])
      = Ok (name, schema) /\
    getitem (declaration [("name", JStr "LS"); ("input_schema", JObj [("type", JStr "object")])])
      "type" = Ok (JStr "function") /\
    (f <~ getitem (declaration [("name", JStr "LS");
                                ("input_schema", JObj [("type", JStr "object")])]) "function" ;;
     getitem f "description") =
    get Sample.LS_tool "description" (JStr "").
Proof.
  apply (proj2 (C8_tool_conversion [])
           [("name", JStr "LS"); ("input_schema", JObj [("type", JStr "object")])]).
  reflexivity.
Defined.

(** ** C9 *)

Lemma append_assoc (a b c : string) : ((a ++ b) ++ c = a ++ b ++ c)%string.
Proof. induction a as [|x a IH]; simpl; [reflexivity | rewrite IH; reflexivity]. Qed.

Lemma append_empty (a : string) : (a ++ "" = a)%string.
Proof. induction a as [|x a IH]; simpl; [reflexivity | rewrite IH; reflexivity]. Qed.

Lemma words_with_space_cons (w : string) (ws : list string) :
  exists x xs, words_with_space (w :: ws) = x :: xs.
Proof. destruct ws; simpl; eauto. Qed.

(** The word deltas put together are the words joined by single spaces. *)
Lemma concat_words (ws : list string) :
  String.concat "" (words_with_space ws) = join " " ws.
Proof.
  destruct ws as [|w ws]; [reflexivity|]. revert w.
  induction ws as [|w2 ws IH]; intros w; [reflexivity|].
  change (words_with_space (w :: w2 :: ws))
    with ((w ++ " ")%string :: words_with_space (w2 :: ws)).
  change (join " " (w :: w2 :: ws)) with (w ++ " " ++ join " " (w2 :: ws))%string.
  rewrite <- (IH w2).
  destruct (words_with_space_cons w2 ws) as (x & xs & E). rewrite E.
  simpl. rewrite append_assoc. reflexivity.
Qed.

Lemma send_deltas_run (texts : list string) (h : history) :
  send_deltas texts h = (Ok tt, h ++ map delta_frame texts).
Proof.
  revert h. induction texts as [|t texts IH]; intros h; simpl.
  - rewrite app_nil_r. reflexivity.
  - unfold bind, _send_event, emit. rewrite IH, <- app_assoc. reflexivity.
Qed.

Lemma stream_text_run (s : string) (h : history) :
  _stream_text_naturally (JStr s) h =
  (Ok tt,
   if String.eqb s "" then h
   else h ++ delta_frame paragraph_separator :: map delta_frame (words_with_space (split s))).
Proof.
  unfold _stream_text_naturally, truthy.
  destruct (String.eqb s ""); [reflexivity|]. cbv beta iota delta [negb].
  unfold bind, _send_event, emit. rewrite send_deltas_run, <- app_assoc. reflexivity.
Qed.

(** A whitespace character cannot start in a word and end in the space
    that follows the word. *)
Lemma space_len_context (c : ascii) (w r : string) :
  space_len (String c w) = 0 -> space_len (String c (w ++ String " " r)) = 0.
Proof.
  destruct w as [|d [|e w]]; intros H; [| |exact H].
  - unfold space_len in *. simpl append.
    destruct (is_ascii_space c); [discriminate|].
    change (byte_is " " 133) with false. change (byte_is " " 160) with false.
    change (byte_is " " 154) with false. change (byte_is " " 128) with false.
    change (byte_is " " 129) with false.
    rewrite !andb_false_r. destruct r; reflexivity.
  - unfold space_len in *. simpl append.
    destruct (is_ascii_space c); [discriminate|].
    destruct (byte_is c 194 && (byte_is d 133 || byte_is d 160)); [discriminate|].
    change (nat_of_ascii " ") with 32.
    change (byte_is " " 128) with false. change (byte_is " " 159) with false.
    rewrite !andb_false_r. reflexivity.
Qed.

Lemma split_from_byte (c : ascii) (rest word : string) :
  split_from 0 word (String c rest) =
  match space_len (String c rest) with
  | O => split_from 0 (word ++ String c "") rest
  | S k => flush word (split_from k "" rest)
  end.
Proof. reflexivity. Qed.

(** A word followed by a space is read through in one go. *)
Lemma split_from_word (w : string) :
  spaceless w = true ->
  forall acc r,
    split_from 0 acc (w ++ String " " r) = split_from 0 (acc ++ w) (String " " r).
Proof.
  induction w as [|c w IH]; intros H acc r.
  - rewrite append_empty. reflexivity.
  - change (spaceless (String c w)) with ((space_len (String c w) =? 0)%nat && spaceless w)
      in H.
    apply andb_prop in H. destruct H as [Hc Hw]. apply Nat.eqb_eq in Hc.
    change (String c w ++ String " " r)%string with (String c (w ++ String " " r)).
    rewrite split_from_byte, (space_len_context c w r Hc), (IH Hw), append_assoc.
    reflexivity.
Qed.

(** A word at the end of the text is a word of the split. *)
Lemma split_from_last (w : string) :
  spaceless w = true -> forall acc, split_from 0 acc w = flush (acc ++ w) [].
Proof.
  induction w as [|c w IH]; intros H acc.
  - rewrite append_empty. reflexivity.
  - change (spaceless (String c w)) with ((space_len (String c w) =? 0)%nat && spaceless w)
      in H.
    apply andb_prop in H. destruct H as [Hc Hw]. apply Nat.eqb_eq in Hc.
    rewrite split_from_byte, Hc, (IH Hw), append_assoc. reflexivity.
Qed.

Lemma flush_word (w : string) (l : list string) :
  negb (String.eqb w "") = true -> flush w l = w :: l.
Proof. destruct w; simpl; [discriminate | reflexivity]. Qed.

(** Words joined by single spaces split back into themselves. *)
Lemma split_join (ws : list string) :
  forallb word ws = true -> split (join " " ws) = ws.
Proof.
  unfold split.
  destruct ws as [|w ws]; [reflexivity|]. revert w.
  induction ws as [|w2 ws IH]; intros w H.
  - simpl in H. rewrite andb_true_r in H. apply andb_prop in H. destruct H as [Hne Hpl].
    change (join " " [w]) with w.
    rewrite (split_from_last w Hpl). apply flush_word. exact Hne.
  - change (forallb word (w :: w2 :: ws))
      with (word w && forallb word (w2 :: ws)) in H.
    apply andb_prop in H. destruct H as [Hw Hrest].
    apply andb_prop in Hw. destruct Hw as [Hne Hpl].
    change (join " " (w :: w2 :: ws)) with (w ++ String " " (join " " (w2 :: ws)))%string.
    rewrite (split_from_word w Hpl).
    change (split_from 0 ("" ++ w) (String " " (join " " (w2 :: ws))))
      with (flush w (split_from 0 "" (join " " (w2 :: ws)))).
    rewrite (IH w2 Hrest). apply flush_word. exact Hne.
Qed.

(** The claim as written fails on a text with two spaces in a row: the word
    deltas put together give one space.  It also fails on the empty text,
    for which no paragraph separator is sent. *)
Lemma C9_counterexample :
  ~ (exists words,
       snd (_stream_text_naturally (JStr "a  b") []) =
         delta_frame paragraph_separator :: map delta_frame words /\
       String.concat "" words = "a  b"%string) /\
  snd (_stream_text_naturally (JStr "") []) = [].
Proof.
  split; [|reflexivity].
  intros (words & E & C). rewrite stream_text_run in E. simpl in E.
  destruct words as [|w1 [|w2 [|w3 words]]]; simpl in E; try discriminate.
  inversion E; subst. discriminate.
Qed.

(** C9, amended.  For a non-empty final answer text the emitter sends one
    delta with the paragraph separator and then one delta per
    whitespace-separated word, each word followed by a space except the
    last; these word deltas put together are the words joined by single
    spaces, which is the text itself when the text consists of words (non-empty
    strings without a whitespace character) separated by single spaces.  For
    the empty text nothing is sent. *)
Theorem C9_word_deltas (s : string) (h : history) :
  _stream_text_naturally (JStr s) h =
    (Ok tt,
     if String.eqb s "" then h
     else h ++ delta_frame paragraph_separator
               :: map delta_frame (words_with_space (split s))) /\
  String.concat "" (words_with_space (split s)) = join " " (split s) /\
  (forall ws,
     forallb word ws = true -> s = join " " ws ->
     String.concat "" (words_with_space (split s)) = s /\ split s = ws).
Proof.
  split; [apply stream_text_run|]. split; [apply concat_words|].
  intros ws Hws ->. rewrite concat_words, (split_join ws Hws). split; reflexivity.
Qed.

Lemma C9_word_deltas_witness :
  String.concat "" (words_with_space (split "it’s two files")) = "it’s two files"%string /\
  split "it’s two files" = ["it’s"; "two"; "files"]%string.
Proof.
  apply (proj2 (proj2 (C9_word_deltas "it’s two files" [])) ["it’s"; "two"; "files"]%string);
    reflexivity.
Defined.

(** ** A scenario of the design

    The backend asks for one directory listing and then answers in plain
    text: two backend calls, one tool execution, and the plain reply as the
    text of the response. *)
Example list_files_scenario :
  let run := _process_conversation_with_streaming
               (Sample.surroundings Sample.lists_then_answers Sample.listing)
               (Sample.list_files false) "msg_0a1b2c3d" [] in
  fst run = Ok (final_response_of "msg_0a1b2c3d" (JStr "Two files") (JInt 7) (JInt 3)) /\
  backend_calls (snd run) = 2 /\
  tool_runs (snd run) = 1.
Proof. repeat split. Qed.

(** * Further properties of the loop *)

Lemma bind_ok_inv {A B} (m : M A) (k : A -> M B) (h : history) (b : B) (h' : history) :
  bind m k h = (Ok b, h') -> exists a h1, m h = (Ok a, h1) /\ k a h1 = (Ok b, h').
Proof.
  unfold bind. destruct (m h) as [[a|e] h1]; [eauto | discriminate].
Qed.

Lemma lift_ok_inv {A} (r : result A) (h : history) (a : A) (h' : history) :
  lift r h = (Ok a, h') -> r = Ok a /\ h' = h.
Proof. unfold lift. intros E. inversion E. auto. Qed.

(** Take a returning computation apart, bind by bind. *)
Ltac returned H :=
  repeat match type of H with
         | bind _ _ _ = (Ok _, _) =>
             let a := fresh "a" in
             let h1 := fresh "h" in
             let E := fresh "E" in
             apply bind_ok_inv in H; destruct H as (a & h1 & E & H);
             try (apply lift_ok_inv in E; destruct E as [E ?]; subst h1)
         end.

Lemma from_loop_tool (id : json) (text : string) :
  from_loop (JObj [("role", JStr "tool"); ("tool_call_id", id); ("content", JStr text)]) = true.
Proof. reflexivity. Qed.

Lemma run_tool_call_returns (env : environment) (count : nat) (conv : list json) (i : nat)
    (tc : json) (h : history) (conv' : list json) (h' : history) :
  run_tool_call env count conv i tc h = (Ok conv', h') ->
  exists entry,
    conv' = conv ++ [entry] /\ from_loop entry = true /\
    tool_runs h' = tool_runs h + 1 /\
    backend_calls h' = backend_calls h /\
    length (frames h') = length (frames h) + (if (1 <? count)%nat then 1 else 0).
Proof.
  unfold run_tool_call. intros H. returned H.
  match goal with
  | E : execute_tool_locally _ _ _ _ = _ |- _ =>
      rewrite execute_tool_locally_total in E; inversion E; subst; clear E
  end.
  unfold ret in H. inversion H; subst; clear H.
  eexists. split; [reflexivity|]. split; [reflexivity|].
  match goal with
  | E : (if _ then _ else _) _ = _ |- _ =>
      destruct (1 <? count)%nat;
      [unfold _send_progress_update, _send_event, emit in E | unfold ret in E];
      inversion E; subst
  end;
  rewrite !tool_runs_app, !backend_calls_app, !frames_app, !length_app; simpl; lia.
Qed.

Lemma run_tool_calls_returns (env : environment) (count : nat) (tcs : list json) :
  forall (i : nat) (conv : list json) (h : history) (conv' : list json) (h' : history),
    run_tool_calls env count i tcs conv h = (Ok conv', h') ->
    exists added,
      conv' = conv ++ added /\ forallb from_loop added = true /\
      length added = length tcs /\
      tool_runs h' = tool_runs h + length tcs /\
      backend_calls h' = backend_calls h /\
      length (frames h') =
        length (frames h) + (if (1 <? count)%nat then length tcs else 0).
Proof.
  induction tcs as [|tc tcs IH]; intros i conv h conv' h' H; simpl in H.
  - unfold ret in H. inversion H; subst. exists []. rewrite app_nil_r. simpl.
    destruct (1 <? count)%nat; repeat split; lia.
  - apply bind_ok_inv in H. destruct H as (conv1 & h1 & E1 & H).
    destruct (run_tool_call_returns env count conv i tc h conv1 h1 E1)
      as (entry & -> & Hentry & R1 & B1 & F1).
    destruct (IH (S i) _ h1 conv' h' H) as (added & -> & Hadded & L & R & B & F).
    exists (entry :: added). rewrite <- app_assoc. simpl. rewrite Hentry, Hadded.
    repeat split; try lia.
    destruct (1 <? count)%nat; lia.
Qed.

Lemma len_iter (v : json) (count : nat) (items : list json) :
  len v = Ok count -> iter v = Ok items -> length items = count.
Proof.
  destruct v; simpl; try discriminate; intros Hl Hi;
    inversion Hl; inversion Hi; subst; rewrite ?length_map; reflexivity.
Qed.

Lemma from_loop_assistant (content calls : json) :
  from_loop (JObj [("role", JStr "assistant"); ("content", content); ("tool_calls", calls)])
  = true.
Proof. reflexivity. Qed.

(** What a returning inspection of a response has done. *)
Lemma inspect_response_returns (env : environment) (st : locals) (n : nat) (r : json)
    (h : history) (f : flow) (st' : locals) (h' : history) :
  inspect_response env st n r h = (Ok (f, st'), h') ->
  iteration st' = n /\
  response st' = Some r /\
  backend_calls h' = backend_calls h /\
  total_tool_calls st <= total_tool_calls st' /\
  tool_runs h' = tool_runs h + (total_tool_calls st' - total_tool_calls st) /\
  (exists added,
     conversation_messages st' = conversation_messages st ++ added /\
     forallb from_loop added = true) /\
  (f = Continue -> truthy r = true) /\
  (truthy r = false -> h' = h).
Proof.
  unfold inspect_response. destruct (truthy r) eqn:Hr.
  - intros H. change (negb true) with false in H. cbv iota in H. returned H.
    match type of H with
    | (if truthy ?v then _ else _) _ = _ => destruct (truthy v)
    end.
    + returned H.
      match goal with
      | E : run_tool_calls _ _ _ _ _ _ = _ |- _ =>
          destruct (run_tool_calls_returns _ _ _ _ _ _ _ _ E)
            as (added & Hconv & Hadded & Hlen & Hruns & Hcalls & _)
      end.
      match goal with
      | Hl : len _ = Ok _, Hi : iter _ = Ok _ |- _ =>
          pose proof (len_iter _ _ _ Hl Hi) as Hcount
      end.
      unfold ret in H. inversion H; subst; clear H. simpl.
      repeat split; try discriminate; auto; try lia.
      * rewrite Hcalls, backend_calls_app. simpl. lia.
      * rewrite Hruns, tool_runs_app. simpl. lia.
      * eexists. rewrite <- app_assoc. split; [reflexivity|].
        simpl. exact Hadded.
    + unfold ret in H. inversion H; subst; clear H. simpl.
      repeat split; try discriminate; auto; try lia.
      eexists. split; reflexivity.
  - intros H. change (negb false) with true in H. cbv iota in H.
    unfold ret in H. inversion H; subst; clear H. simpl.
    repeat split; try discriminate; auto; try lia.
    exists []. rewrite app_nil_r. auto.
Qed.

Lemma call_groq_api_returns (env : environment) (ms ts : list json) (req : json) (h : history)
    (r : json) (h' : history) :
  _call_groq_api env ms ts req h = (Ok r, h') ->
  exists payload,
    build_payload ms ts req = Ok payload /\
    r = usable (requests_post env h payload) /\
    h' = h ++ [Post payload (requests_post env h payload)].
Proof.
  destruct (build_payload ms ts req) as [payload|e] eqn:Hp.
  - rewrite (call_groq_api_run env ms ts req payload h Hp). intros E. inversion E. eauto.
  - rewrite (call_groq_api_raises env ms ts req e h Hp). discriminate.
Qed.

(** What one returning pass of the loop has done. *)
Lemma loop_body_returns (env : environment) (ts : list json) (req : json) (st : locals)
    (h : history) (f : flow) (st' : locals) (h' : history) :
  loop_body env ts req st h = (Ok (f, st'), h') ->
  iteration st' = iteration st + 1 /\
  backend_calls h' = backend_calls h + 1 /\
  total_tool_calls st <= total_tool_calls st' /\
  tool_runs h' = tool_runs h + (total_tool_calls st' - total_tool_calls st) /\
  (exists added,
     conversation_messages st' = conversation_messages st ++ added /\
     forallb from_loop added = true) /\
  (exists r h0 h1,
     inspect_response env st (iteration st + 1) r h0 = (Ok (f, st'), h1)).
Proof.
  unfold loop_body. intros H. returned H.
  match goal with
  | E : _call_groq_api _ _ _ _ _ = _ |- _ =>
      destruct (call_groq_api_returns _ _ _ _ _ _ _ E) as (payload & _ & _ & ->)
  end.
  pose proof (inspect_response_returns _ _ _ _ _ _ _ _ H)
    as (Hit & _ & Hcalls & Htot & Hruns & Hadded & _ & _).
  repeat split; auto.
  - rewrite Hcalls, !backend_calls_app. simpl. lia.
  - rewrite Hruns, !tool_runs_app. simpl. lia.
  - eauto.
Qed.

(** What a returning run of the loop has done: one backend call per
    iteration counted, one tool run per tool call counted, entries only
    appended. *)
Lemma tool_loop_returns (env : environment) (ts : list json) (req : json) :
  forall (fuel : nat) (st : locals) (h : history) (st' : locals) (h' : history),
    tool_loop env fuel ts req st h = (Ok st', h') ->
    iteration st <= iteration st' /\
    (iteration st <= MAX_TOOL_ITERATIONS -> iteration st' <= MAX_TOOL_ITERATIONS) /\
    backend_calls h' = backend_calls h + (iteration st' - iteration st) /\
    total_tool_calls st <= total_tool_calls st' /\
    tool_runs h' = tool_runs h + (total_tool_calls st' - total_tool_calls st) /\
    (exists added,
       conversation_messages st' = conversation_messages st ++ added /\
       forallb from_loop added = true) /\
    (st' = st \/
     exists st0 n r h0 h1 f, inspect_response env st0 n r h0 = (Ok (f, st'), h1)).
Proof.
  assert (Hstay : forall (st : locals) (h : history),
            iteration st <= iteration st /\
            (iteration st <= MAX_TOOL_ITERATIONS -> iteration st <= MAX_TOOL_ITERATIONS) /\
            backend_calls h = backend_calls h + (iteration st - iteration st) /\
            total_tool_calls st <= total_tool_calls st /\
            tool_runs h = tool_runs h + (total_tool_calls st - total_tool_calls st) /\
            (exists added,
               conversation_messages st = conversation_messages st ++ added /\
               forallb from_loop added = true) /\
            (st = st \/
             exists st0 n r h0 h1 f, inspect_response env st0 n r h0 = (Ok (f, st), h1))).
  { intros st h. repeat split; auto; try lia. exists []. rewrite app_nil_r. auto. }
  induction fuel as [|fuel IH]; intros st h st' h' H.
  - simpl in H. unfold ret in H. inversion H; subst. apply Hstay.
  - rewrite tool_loop_pass in H.
    destruct (Nat.ltb_spec (iteration st) MAX_TOOL_ITERATIONS) as [Hlt|Hge];
      [|unfold ret in H; inversion H; subst; apply Hstay].
    apply bind_ok_inv in H. destruct H as ([f st1] & h1 & Ebody & H).
    destruct (loop_body_returns env ts req st h f st1 h1 Ebody)
      as (Hit & Hcalls & Htot & Hruns & (added1 & Hconv1 & Hadded1) & (r & h0 & h2 & Hlast)).
    destruct f.
    + destruct (IH st1 h1 st' h' H)
        as (Hit' & Hmax & Hcalls' & Htot' & Hruns' & (added2 & Hconv2 & Hadded2) & Hlast').
      repeat split; try lia.
      * exists (added1 ++ added2). rewrite Hconv2, Hconv1, <- app_assoc, forallb_app.
        rewrite Hadded1, Hadded2. auto.
      * right. destruct Hlast' as [->|Hlast']; [|exact Hlast'].
        exists st, (iteration st + 1), r, h0, h2, Continue. exact Hlast.
    + unfold ret in H. inversion H; subst.
      repeat split; try lia.
      * exists added1. auto.
      * right. exists st, (iteration st + 1), r, h0, h2, Break. exact Hlast.
Qed.

Lemma run_conversation_returns (env : environment) (req : json) (h : history) (st : locals)
    (h' : history) :
  run_conversation env req h = (Ok st, h') ->
  exists conv ts,
    translate env req = Ok (conv, ts) /\
    tool_loop env MAX_TOOL_ITERATIONS ts req (initial conv) (h ++ [starting]) = (Ok st, h').
Proof.
  intros H. destruct (translate env req) as [[conv ts]|e] eqn:Htr.
  - exists conv, ts. rewrite (run_conversation_translated env req conv ts h Htr) in H. auto.
  - destruct (run_conversation_untranslated env req e h Htr) as [h1 E].
    rewrite E in H. discriminate.
Qed.

Lemma last_item_snoc (l : list json) (x : json) : last_item (l ++ [x]) = Ok x.
Proof. unfold last_item. rewrite rev_app_distr. reflexivity. Qed.

Lemma run_conversation_first_pass (env : environment) (req : json) (h : history) (st : locals)
    (h' : history) :
  run_conversation env req h = (Ok st, h') -> 1 <= iteration st.
Proof.
  intros H. destruct (run_conversation_returns env req h st h' H) as (conv & ts & _ & Hloop).
  change MAX_TOOL_ITERATIONS with (S 14) in Hloop at 1. rewrite tool_loop_pass in Hloop.
  change (iteration (initial conv) <? MAX_TOOL_ITERATIONS)%nat with true in Hloop.
  cbv iota in Hloop.
  apply bind_ok_inv in Hloop. destruct Hloop as ([f st1] & h1 & Ebody & Hrest).
  destruct (loop_body_returns env ts req _ _ _ _ _ Ebody) as (Hit & _).
  simpl in Hit. destruct f.
  - destruct (tool_loop_returns env ts req _ _ _ _ _ Hrest) as (Hle & _). lia.
  - unfold ret in Hrest. inversion Hrest; subst. lia.
Qed.

(** The counters of a returning conversation tell what was done: between 1
    and 15 iterations, one backend call for each, and one tool execution
    for each tool call counted. *)
Theorem counters_match_history (env : environment) (req : json) (h : history) (st : locals)
    (h' : history) :
  run_conversation env req h = (Ok st, h') ->
  1 <= iteration st <= MAX_TOOL_ITERATIONS /\
  backend_calls h' = backend_calls h + iteration st /\
  tool_runs h' = tool_runs h + total_tool_calls st.
Proof.
  intros H. pose proof (run_conversation_first_pass env req h st h' H) as Hfirst.
  destruct (run_conversation_returns env req h st h' H) as (conv & ts & _ & Hloop).
  destruct (tool_loop_returns env ts req _ _ _ _ _ Hloop)
    as (_ & Hmax & Hcalls & _ & Hruns & _).
  simpl in *. rewrite backend_calls_app in Hcalls. rewrite tool_runs_app in Hruns.
  simpl in *. repeat split; lia.
Qed.

Lemma counters_match_history_witness :
  exists st h',
    run_conversation (Sample.surroundings Sample.lists_then_answers Sample.listing)
      (Sample.list_files false) [] = (Ok st, h') /\
    (1 <= iteration st <= MAX_TOOL_ITERATIONS /\
     backend_calls h' = backend_calls [] + iteration st /\
     tool_runs h' = tool_runs [] + total_tool_calls st).
Proof.
  eexists. eexists. split; [vm_compute; reflexivity|].
  apply (counters_match_history
           (Sample.surroundings Sample.lists_then_answers Sample.listing)
           (Sample.list_files false) []).
  vm_compute. reflexivity.
Defined.

(** The conversation is only appended to: a returning run leaves the
    translated messages in front, and what it appended are assistant and
    tool entries. *)
Theorem conversation_only_grows (env : environment) (req : json) (h : history) (st : locals)
    (h' : history) (conv ts : list json) :
  translate env req = Ok (conv, ts) ->
  run_conversation env req h = (Ok st, h') ->
  exists added,
    conversation_messages st = conv ++ added /\ forallb from_loop added = true.
Proof.
  intros Htr H. rewrite (run_conversation_translated env req conv ts h Htr) in H.
  destruct (tool_loop_returns env ts req _ _ _ _ _ H) as (_ & _ & _ & _ & _ & Hadded & _).
  exact Hadded.
Qed.

Lemma conversation_only_grows_witness :
  exists added,
    conversation_messages
      (match fst (run_conversation (Sample.surroundings Sample.lists_then_answers Sample.listing)
                    (Sample.list_files false) []) with
       | Ok st => st
       | Raise _ => initial []
       end) = [Sample.user_says "list files"] ++ added /\
    forallb from_loop added = true.
Proof.
  apply (conversation_only_grows
           (Sample.surroundings Sample.lists_then_answers Sample.listing)
           (Sample.list_files false) [] _
           (snd (run_conversation (Sample.surroundings Sample.lists_then_answers Sample.listing)
                   (Sample.list_files false) []))
           [Sample.user_says "list files"]
           [declaration [("name", JStr "LS"); ("input_schema", JObj [("type", JStr "object")])]]).
  - reflexivity.
  - vm_compute. reflexivity.
Defined.

(** When the last backend reply carries a message and no tool call, the
    conversation ends with that message as an assistant entry, and the final
    response carries its content as text and the reply's usage counts, 100
    and 50 standing in for a count the reply does not give. *)
Theorem final_response_of_plain_reply (env : environment) (req : json) (h : history)
    (st : locals) (h' : history) (r : json) (message_id : string) :
  run_conversation env req h = (Ok st, h') ->
  response st = Some r ->
  no_tool_calls r = true ->
  exists m content calls,
    message_of r = Ok m /\
    get m "content" (JStr "") = Ok content /\
    last_item (conversation_messages st) =
      Ok (JObj [("role", JStr "assistant"); ("content", content); ("tool_calls", calls)]) /\
    forall usage input_tokens output_tokens,
      get r "usage" (JObj []) = Ok usage ->
      get usage "prompt_tokens" (JInt 100) = Ok input_tokens ->
      get usage "completion_tokens" (JInt 50) = Ok output_tokens ->
      build_final_response message_id st =
      Ok (final_response_of message_id content input_tokens output_tokens).
Proof.
  intros H Hr Hplain.
  destruct (run_conversation_returns env req h st h' H) as (conv & ts & _ & Hloop).
  destruct (tool_loop_returns env ts req _ _ _ _ _ Hloop)
    as (_ & _ & _ & _ & _ & _ & [->|(st0 & n & r' & h0 & h1 & f & Hlast)]);
    [discriminate|].
  pose proof (inspect_response_returns _ _ _ _ _ _ _ _ Hlast) as (_ & Hr' & _).
  rewrite Hr in Hr'. inversion Hr'; subst r'. clear Hr'.
  destruct (inspect_final env st0 n r h0 Hplain) as (m & content & calls & Hm & Hc & E).
  rewrite E in Hlast. inversion Hlast; subst. clear Hlast.
  exists m, content, calls. repeat split; auto.
  - simpl. apply last_item_snoc.
  - intros usage i o Hu Hi Ho. unfold build_final_response. simpl.
    rewrite last_item_snoc. simpl. rewrite Hu. simpl. rewrite Hi, Ho. reflexivity.
Qed.

Lemma final_response_of_plain_reply_witness :
  build_final_response "msg_0a1b2c3d" Runs.listing_state
  = Ok (final_response_of "msg_0a1b2c3d" (JStr "Two files") (JInt 7) (JInt 3)).
Proof.
  destruct (final_response_of_plain_reply
              (Sample.surroundings Sample.lists_then_answers Sample.listing)
              (Sample.list_files false) [] Runs.listing_state (snd Runs.listing_run)
              (usable (Sample.reply (Sample.plain "Two files"))) "msg_0a1b2c3d")
    as (m & content & calls & Hm & Hc & _ & Hfinal).
  - vm_compute. reflexivity.
  - reflexivity.
  - reflexivity.
  - vm_compute in Hm. inversion Hm; subst m. vm_compute in Hc. inversion Hc; subst content.
    apply (Hfinal Sample.usage_7_3); reflexivity.
Defined.

(** ** No retry *)

Lemma no_retry_quiet_app (qs es : history) :
  forallb quiet_event qs = true -> no_retry (qs ++ es) = no_retry es.
Proof.
  induction qs as [|q qs IH]; simpl; [reflexivity|].
  intros H. apply andb_prop in H. destruct H as [Hq Hqs].
  destruct q; simpl in Hq; try discriminate; auto.
Qed.

Lemma no_retry_quiet (qs : history) : forallb quiet_event qs = true -> no_retry qs = true.
Proof.
  intros H. rewrite <- (app_nil_r qs), (no_retry_quiet_app qs [] H). reflexivity.
Qed.

Lemma tool_loop_no_retry (env : environment) (ts : list json) (req : json) :
  forall (fuel : nat) (st : locals) (h : history),
    exists es, snd (tool_loop env fuel ts req st h) = h ++ es /\ no_retry es = true.
Proof.
  induction fuel as [|fuel IH]; intros st h.
  - exists []. simpl. rewrite app_nil_r. auto.
  - rewrite tool_loop_pass.
    destruct (iteration st <? MAX_TOOL_ITERATIONS)%nat;
      [|exists []; simpl; rewrite app_nil_r; auto].
    unfold bind at 1.
    destruct (build_payload (conversation_messages st) ts req) as [payload|e] eqn:Hp.
    + rewrite (loop_body_run env ts req payload st h Hp). cbv zeta.
      set (h1 := h ++ [thinking (iteration st + 1)]).
      set (outcome := requests_post env h1 payload).
      destruct (inspect_response_quiet env st (iteration st + 1) (usable outcome)
                  (h1 ++ [Post payload outcome])) as (qs & Eqs & Hqs).
      destruct (inspect_response env st (iteration st + 1) (usable outcome)
                  (h1 ++ [Post payload outcome])) as [[[[|] st1]|e] h2] eqn:Einspect;
        simpl in Eqs; subst h2.
      * destruct (inspect_response_returns _ _ _ _ _ _ _ _ Einspect)
          as (_ & _ & _ & _ & _ & _ & Htruthy & _).
        destruct (IH st1 ((h1 ++ [Post payload outcome]) ++ qs)) as (es & Ees & Hes).
        exists (thinking (iteration st + 1) :: Post payload outcome :: qs ++ es).
        rewrite Ees. unfold h1. rewrite <- !app_assoc. split; [reflexivity|].
        simpl. rewrite (Htruthy eq_refl). simpl. rewrite (no_retry_quiet_app qs es Hqs).
        exact Hes.
      * exists (thinking (iteration st + 1) :: Post payload outcome :: qs).
        unfold h1. simpl. rewrite <- !app_assoc. split; [reflexivity|].
        rewrite (quiet_no_calls qs Hqs), (no_retry_quiet qs Hqs). simpl.
        rewrite orb_true_r. reflexivity.
      * exists (thinking (iteration st + 1) :: Post payload outcome :: qs).
        unfold h1. simpl. rewrite <- !app_assoc. split; [reflexivity|].
        rewrite (quiet_no_calls qs Hqs), (no_retry_quiet qs Hqs). simpl.
        rewrite orb_true_r. reflexivity.
    + rewrite (loop_body_no_payload env ts req st h e Hp).
      exists [thinking (iteration st + 1)]. auto.
Qed.

Lemma run_conversation_stops_early (env : environment) (req : json) (e : exn) (h : history) :
  translate env req = Raise e ->
  exists es, snd (run_conversation env req h) = h ++ es /\ forallb quiet_event es = true.
Proof.
  unfold translate, run_conversation, bind, lift.
  destruct (get req "messages" (JList [])) as [ims|]; simpl;
    [|intros _; exists []; rewrite app_nil_r; auto].
  destruct (get req "tools" (JList [])) as [tls|]; simpl;
    [|intros _; exists []; rewrite app_nil_r; auto].
  destruct (_convert_messages_to_openai env ims) as [conv'|]; simpl;
    [|intros _; exists [starting]; auto].
  destruct (_convert_tools_to_openai tls) as [ts'|]; simpl;
    [discriminate | intros _; exists [starting]; auto].
Qed.

(** The loop does not retry: after a backend call that gave nothing usable
    no further backend call is made for the request. *)
Theorem no_call_after_a_failed_call (env : environment) (req : json) (message_id : string)
    (h : history) :
  exists es,
    snd (_process_conversation_with_streaming env req message_id h) = h ++ es /\
    no_retry es = true.
Proof.
  assert (Hrun : exists es, snd (run_conversation env req h) = h ++ es /\ no_retry es = true).
  { destruct (translate env req) as [[conv ts]|e] eqn:Htr.
    - rewrite (run_conversation_translated env req conv ts h Htr).
      destruct (tool_loop_no_retry env ts req MAX_TOOL_ITERATIONS (initial conv)
                  (h ++ [starting])) as (es & E & Hes).
      exists (starting :: es). rewrite E, <- app_assoc. auto.
    - destruct (run_conversation_stops_early env req e h Htr) as (es & E & Hes).
      exists es. split; [exact E | apply no_retry_quiet; exact Hes]. }
  destruct Hrun as (es & E & Hes). exists es. split; [|exact Hes].
  unfold _process_conversation_with_streaming, bind, lift.
  destruct (run_conversation env req h) as [[st|e] h1]; exact E.
Qed.

(** * The request handlers *)

Lemma loop_is_stream (e : event) : loop_event e = true -> stream_event e = true.
Proof. destruct e; simpl; auto. Qed.

Lemma loop_events_stream (es : history) :
  forallb loop_event es = true -> forallb stream_event es = true.
Proof.
  rewrite !forallb_forall. intros H x Hx. apply loop_is_stream. auto.
Qed.

(** The non-streaming handler never raises and gives exactly one HTTP
    answer, after everything else: status 200 with the final response as
    body when the conversation returned, status 500 when it raised. *)
Theorem complete_conversation_answers_once (env : environment) (req : json) (h : history) :
  exists es,
    forallb loop_event es = true /\
    ((exists text input_tokens output_tokens,
        handle_complete_conversation env req h =
        (Ok tt, h ++ es ++ [SendResponse 200 "application/json";
                            Body (final_response_of ("msg_" ++ uuid_hex8 env h)
                                    text input_tokens output_tokens)])) \/
     (exists e,
        handle_complete_conversation env req h =
        (Ok tt, h ++ es ++ [SendError 500 (exn_str env e)]))).
Proof.
  destruct (process_loop env req ("msg_" ++ uuid_hex8 env h)%string h) as (es & E & Hes).
  pose proof (process_returns_message env req ("msg_" ++ uuid_hex8 env h)%string h) as Hshape.
  exists es. split; [exact Hes|].
  cbv beta iota delta [handle_complete_conversation try_except
                       _execute_complete_conversation bind new_message_id past ret emit].
  destruct (_process_conversation_with_streaming env req ("msg_" ++ uuid_hex8 env h) h)
    as [[final|e] h1]; simpl in E; subst h1.
  - left. destruct (Hshape final _ eq_refl) as (text & i & o & ->).
    exists text, i, o. rewrite <- !app_assoc. reflexivity.
  - right. exists e. rewrite <- app_assoc. reflexivity.
Qed.

(** The streaming handler never raises, and once its status line is out it
    writes frames only: a failure never turns into an HTTP error status or
    a JSON body. *)
Theorem streaming_writes_frames_only (env : environment) (req : json) (h : history) :
  exists es,
    handle_streaming_conversation env req h =
      (Ok tt, h ++ SendResponse 200 "text/event-stream" :: es) /\
    forallb stream_event es = true.
Proof.
  set (h0 := h ++ [SendResponse 200 "text/event-stream"]).
  set (message_id := ("msg_" ++ uuid_hex8 env h0)%string).
  set (opened := h0 ++ [Frame "message_start" (message_start_data message_id);
                        Frame "content_block_start" content_block_start_data]).
  assert (Hbody :
    (mid <- new_message_id env ;;
     _send_event "message_start" (message_start_data mid) ;;
     _send_event "content_block_start" content_block_start_data ;;
     stream_conversation env req mid) h0 = stream_conversation env req message_id opened).
  { cbv beta iota delta [bind new_message_id past ret _send_event emit].
    unfold opened. rewrite <- app_assoc. reflexivity. }
  unfold handle_streaming_conversation. unfold bind at 1. unfold emit at 1. cbv beta iota.
  fold h0. unfold try_except. rewrite Hbody.
  destruct (stream_conversation_run env req message_id opened) as (es & Hes & Hrun).
  apply loop_events_stream in Hes.
  destruct (stream_conversation env req message_id opened) as [[[]|e] h'].
  - destruct Hrun as (usage & ->). eexists. split.
    + unfold opened, h0. rewrite <- !app_assoc. simpl. reflexivity.
    + simpl. rewrite forallb_app, Hes. reflexivity.
  - subst h'. eexists. split.
    + unfold _send_error_event, _send_event, emit, opened, h0.
      rewrite <- !app_assoc. simpl. reflexivity.
    + simpl. rewrite forallb_app, Hes. reflexivity.
Qed.

Lemma handle_complete_ok (env : environment) (req : json) (h : history) :
  fst (handle_complete_conversation env req h) = Ok tt.
Proof.
  destruct (complete_conversation_answers_once env req h)
    as (es & _ & [(t & i & o & E)|(e & E)]); rewrite E; reflexivity.
Qed.

Lemma handle_streaming_ok (env : environment) (req : json) (h : history) :
  fst (handle_streaming_conversation env req h) = Ok tt.
Proof.
  destruct (streaming_writes_frames_only env req h) as (es & E & _). rewrite E. reflexivity.
Qed.

Lemma try_except_ok {A} (m : M A) (handler : exn -> M A) (h : history) (a : A) :
  fst (m h) = Ok a -> try_except m handler h = m h.
Proof. unfold try_except. destruct (m h) as [[a'|e] h']; simpl; [reflexivity | discriminate]. Qed.

Lemma answer_error_500 (env : environment) (e : exn) (h : history) :
  e <> JSONDecodeError ->
  log_write env ("HANDLER_ERROR: " ++ exn_str env e) = Ok tt ->
  answer_error env e h = (Ok tt, h ++ [SendError 500 (exn_str env e)]).
Proof.
  intros He Hlog. unfold answer_error, log_debug, bind, lift, emit.
  destruct e; try (rewrite Hlog; reflexivity). contradiction.
Qed.

Lemma len_raises (v : json) (e : exn) : len v = Raise e -> e = TypeError.
Proof. destruct v; simpl; intros E; inversion E; reflexivity. Qed.

(** A request whose messages and tools have a length, and whose log line
    can be written, goes to the streaming handler when its [stream] field is
    truthy and to the non-streaming one otherwise (absent, [false], [0],
    [null], an empty string...); the [except] clauses of [handle_messages]
    then have nothing left to catch.  When the log line cannot be written
    (a [stream] value with a character the log file cannot encode) neither
    handler runs and the request is answered with status 500. *)
Theorem handle_messages_dispatch (env : environment) (data : string) (req : json)
    (messages tools stream : json) (n k : nat) (h : history) :
  json_loads_bytes env data = Ok req ->
  get req "messages" (JList []) = Ok messages ->
  get req "tools" (JList []) = Ok tools ->
  get req "stream" (JBool false) = Ok stream ->
  len messages = Ok n ->
  len tools = Ok k ->
  (log_write env (request_line env n k stream) = Ok tt ->
   handle_messages env (Ok data) h =
   if truthy stream then handle_streaming_conversation env req h
   else handle_complete_conversation env req h) /\
  (forall e,
     log_write env (request_line env n k stream) = Raise e ->
     e <> JSONDecodeError ->
     log_write env ("HANDLER_ERROR: " ++ exn_str env e) = Ok tt ->
     handle_messages env (Ok data) h = (Ok tt, h ++ [SendError 500 (exn_str env e)])).
Proof.
  intros Hload Hm Ht Hs Hn Hk. split.
  - intros Hlog.
    assert (Hinner :
      (data0 <- lift (Ok data) ;;
       anthropic_request <- lift (json_loads_bytes env data0) ;;
       initial_messages <- lift (get anthropic_request "messages" (JList [])) ;;
       tools0 <- lift (get anthropic_request "tools" (JList [])) ;;
       stream0 <- lift (get anthropic_request "stream" (JBool false)) ;;
       n0 <- lift (len initial_messages) ;;
       k0 <- lift (len tools0) ;;
       log_debug env (request_line env n0 k0 stream0) ;;
       if truthy stream0
       then handle_streaming_conversation env anthropic_request
       else handle_complete_conversation env anthropic_request) h =
      (if truthy stream then handle_streaming_conversation env req h
       else handle_complete_conversation env req h)).
    { unfold bind, lift, log_debug. rewrite Hload, Hm, Ht, Hs, Hn, Hk, Hlog.
      destruct (truthy stream); reflexivity. }
    unfold handle_messages. rewrite (try_except_ok _ _ h tt); [exact Hinner|].
    rewrite Hinner. destruct (truthy stream);
      [apply handle_streaming_ok | apply handle_complete_ok].
  - intros e Hlog He Hhandler.
    rewrite <- (answer_error_500 env e h He Hhandler).
    unfold handle_messages, try_except, bind, lift, log_debug.
    rewrite Hload, Hm, Ht, Hs, Hn, Hk, Hlog. reflexivity.
Qed.

Lemma handle_messages_dispatch_witness :
  handle_messages Runs.unloggable_request (Ok "{}") [] =
  (Ok tt, [] ++ [SendError 500 (exn_str Runs.unloggable_request
                                  (OtherException "UnicodeEncodeError"))]).
Proof.
  apply (proj2 (handle_messages_dispatch Runs.unloggable_request "{}" (JObj [])
                  (JList []) (JList []) (JBool false) 0 0 []
                  eq_refl eq_refl eq_refl eq_refl eq_refl eq_refl)
           (OtherException "UnicodeEncodeError"));
    [reflexivity | discriminate | reflexivity].
Defined.

(** What [handle_messages] answers to a request it cannot serve, when the
    line its [except] clause logs can be written.  A body the parser rejects
    with [JSONDecodeError] is answered with status 400.  Status 500 answers a
    [Content-Length] that is not a number, a body on which the parser raises
    anything else (bytes that do not decode, nesting that is too deep), a
    body that parses to something that is not an object, and messages or
    tools without a length.  In each case that status is all the handler
    sends.  When the line of the clause cannot be written, the exception
    leaves the handler and nothing is sent. *)
Theorem handle_messages_rejects (env : environment) (h : history) :
  (forall data,
     json_loads_bytes env data = Raise JSONDecodeError ->
     log_write env ("JSON_ERROR: " ++ exn_str env JSONDecodeError) = Ok tt ->
     handle_messages env (Ok data) h =
     (Ok tt, h ++ [SendError 400 ("Invalid JSON: " ++ exn_str env JSONDecodeError)])) /\
  (forall e,
     e <> JSONDecodeError ->
     log_write env ("HANDLER_ERROR: " ++ exn_str env e) = Ok tt ->
     handle_messages env (Raise e) h = (Ok tt, h ++ [SendError 500 (exn_str env e)])) /\
  (forall data e,
     json_loads_bytes env data = Raise e ->
     e <> JSONDecodeError ->
     log_write env ("HANDLER_ERROR: " ++ exn_str env e) = Ok tt ->
     handle_messages env (Ok data) h = (Ok tt, h ++ [SendError 500 (exn_str env e)])) /\
  (forall data req,
     json_loads_bytes env data = Ok req -> is_dict req = false ->
     log_write env ("HANDLER_ERROR: " ++ exn_str env AttributeError) = Ok tt ->
     handle_messages env (Ok data) h =
     (Ok tt, h ++ [SendError 500 (exn_str env AttributeError)])) /\
  (forall data o messages tools e,
     json_loads_bytes env data = Ok (JObj o) ->
     get (JObj o) "messages" (JList []) = Ok messages ->
     get (JObj o) "tools" (JList []) = Ok tools ->
     (m <~ len messages ;; len tools) = Raise e ->
     log_write env ("HANDLER_ERROR: " ++ exn_str env e) = Ok tt ->
     handle_messages env (Ok data) h = (Ok tt, h ++ [SendError 500 (exn_str env e)])) /\
  (forall data e,
     json_loads_bytes env data = Raise JSONDecodeError ->
     log_write env ("JSON_ERROR: " ++ exn_str env JSONDecodeError) = Raise e ->
     handle_messages env (Ok data) h = (Raise e, h)).
Proof.
  repeat split.
  - intros data Hload Hlog.
    unfold handle_messages, try_except, bind, lift, answer_error, log_debug, emit.
    rewrite Hload, Hlog. reflexivity.
  - intros e He Hlog. rewrite <- (answer_error_500 env e h He Hlog). reflexivity.
  - intros data e Hload He Hlog. rewrite <- (answer_error_500 env e h He Hlog).
    unfold handle_messages, try_except, bind, lift. rewrite Hload. reflexivity.
  - intros data req Hload Hdict Hlog.
    rewrite <- (answer_error_500 env AttributeError h); [|discriminate | exact Hlog].
    unfold handle_messages, try_except, bind, lift. rewrite Hload.
    destruct req; try discriminate; reflexivity.
  - intros data o messages tools e Hload Hm Ht Hlen Hlog.
    assert (He : e = TypeError).
    { destruct (len messages) as [m|e1] eqn:E1; simpl in Hlen.
      - apply (len_raises tools). exact Hlen.
      - inversion Hlen; subst. apply (len_raises messages). exact E1. }
    rewrite <- (answer_error_500 env e h); [|subst e; discriminate | exact Hlog].
    unfold handle_messages.
    cbv beta iota delta [try_except bind lift]. rewrite Hload, Hm, Ht.
    simpl get. cbv beta iota.
    destruct (len messages) as [m|e1]; simpl in Hlen.
    + rewrite Hlen. reflexivity.
    + inversion Hlen; subst. reflexivity.
  - intros data e Hload Hlog.
    unfold handle_messages, try_except, bind, lift, answer_error, log_debug.
    rewrite Hload, Hlog. reflexivity.
Qed.

Lemma handle_messages_rejects_witness :
  handle_messages (Sample.surroundings Sample.says_hello Sample.listing)
    (Ok (String (ascii_of_nat 255) "")) [] =
  (Ok tt, [] ++ [SendError 500
                   (exn_str (Sample.surroundings Sample.says_hello Sample.listing)
                      (OtherException "UnicodeDecodeError"))]).
Proof.
  apply (proj1 (proj2 (proj2 (handle_messages_rejects
                                (Sample.surroundings Sample.says_hello Sample.listing) [])))
           (String (ascii_of_nat 255) "") (OtherException "UnicodeDecodeError"));
    [reflexivity | discriminate | reflexivity].
Defined.

(** ** Routing *)

Lemma before_query_app (p q : string) :
  before_query (p ++ "?" ++ q)%string = before_query p.
Proof.
  induction p as [|c p IH]; simpl in *; [reflexivity|].
  destruct (Ascii.eqb c "?"); [reflexivity | rewrite IH; reflexivity].
Qed.

(** What follows the first question mark of the request path plays no part
    in routing; and a POST whose path before it is neither [/v1/messages]
    nor [/messages] is answered with status 404 without a look at the
    body. *)
Theorem routing_ignores_the_query (env : environment) (p q : string)
    (post_data : result string) (h : history) :
  do_GET (p ++ "?" ++ q)%string = do_GET p /\
  do_POST env (p ++ "?" ++ q)%string post_data = do_POST env p post_data /\
  (String.eqb (before_query p) "/v1/messages" = false ->
   String.eqb (before_query p) "/messages" = false ->
   do_POST env p post_data h = (Ok tt, h ++ [not_found (before_query p)])).
Proof.
  unfold do_GET, do_POST. rewrite before_query_app. repeat split.
  intros H1 H2. rewrite H1, H2. reflexivity.
Qed.

Lemma routing_ignores_the_query_witness :
  do_POST (Sample.surroundings Sample.says_hello Sample.listing) "/v2/chat" (Ok "{}") [] =
  (Ok tt, [] ++ [not_found (before_query "/v2/chat")]).
Proof.
  apply (proj2 (proj2 (routing_ignores_the_query
                         (Sample.surroundings Sample.says_hello Sample.listing)
                         "/v2/chat" "" (Ok "{}") []))); reflexivity.
Defined.

(** ** The emitter's helpers *)

Lemma first_text_skips (pre : list json) (rest : list json) :
  forallb is_dict pre = true ->
  forallb (fun x => negb (is_text_block x)) pre = true ->
  first_text (pre ++ rest) = first_text rest.
Proof.
  induction pre as [|x pre IH]; simpl; [reflexivity|].
  intros Hd Ht. apply andb_prop in Hd. destruct Hd as [Hx Hd].
  apply andb_prop in Ht. destruct Ht as [Hnt Ht].
  destruct x as [| | | | | |o]; try discriminate.
  unfold is_text_block in Hnt. simpl in *.
  apply negb_true_iff in Hnt. rewrite Hnt. apply IH; assumption.
Qed.

(** The text extracted from a response is that of its first block of type
    [text]: blocks of other types before it are passed over, and without any
    text block, or without content, the text is empty. *)
Theorem extract_text_takes_first_text_block (o : list (string * json))
    (pre post : list json) (b : json) :
  forallb is_dict pre = true ->
  forallb (fun x => negb (is_text_block x)) pre = true ->
  (assoc "content" o = Some (JList (pre ++ b :: post)) ->
   is_text_block b = true ->
   _extract_text_from_response (JObj o) = get b "text" (JStr "")) /\
  (assoc "content" o = Some (JList pre) ->
   _extract_text_from_response (JObj o) = Ok (JStr "")) /\
  (assoc "content" o = None -> _extract_text_from_response (JObj o) = Ok (JStr "")).
Proof.
  intros Hd Ht. unfold _extract_text_from_response. simpl. repeat split.
  - intros Hc Hb. rewrite Hc. simpl. rewrite (first_text_skips pre (b :: post) Hd Ht).
    unfold is_text_block in Hb. simpl.
    destruct (get b "type" JNull) as [ty|]; simpl; [|discriminate].
    rewrite Hb. reflexivity.
  - intros Hc. rewrite Hc. simpl.
    rewrite <- (app_nil_r pre), (first_text_skips pre [] Hd Ht). reflexivity.
  - intros Hc. rewrite Hc. reflexivity.
Qed.

Lemma extract_text_takes_first_text_block_witness :
  _extract_text_from_response
    (JObj [("content", JList ([JObj [("type", JStr "image")]] ++
                              JObj [("type", JStr "text"); ("text", JStr "first")]
                              :: [JObj [("type", JStr "text"); ("text", JStr "second")]]))])
  = get (JObj [("type", JStr "text"); ("text", JStr "first")]) "text" (JStr "").
Proof.
  apply (proj1 (extract_text_takes_first_text_block
                  [("content", JList ([JObj [("type", JStr "image")]] ++
                              JObj [("type", JStr "text"); ("text", JStr "first")]
                              :: [JObj [("type", JStr "text"); ("text", JStr "second")]]))]
                  [JObj [("type", JStr "image")]]
                  [JObj [("type", JStr "text"); ("text", JStr "second")]]
                  (JObj [("type", JStr "text"); ("text", JStr "first")])
                  eq_refl eq_refl)); reflexivity.
Defined.

(** Sending the completion events never raises.  For a response that is a
    dict the three closing frames go out, with [end_turn] and an empty usage
    standing in for a missing stop reason or usage; for anything else the
    block is closed and the other two frames are silently left out. *)
Theorem completion_events_never_raise (response : json) (h : history) :
  fst (_send_completion_events response h) = Ok tt /\
  (forall o,
     response = JObj o ->
     snd (_send_completion_events response h) =
     h ++ [Frame "content_block_stop" content_block_stop_data;
           Frame "message_delta"
             (message_delta_data (field "stop_reason" (JStr "end_turn") o)
                                 (field "usage" (JObj []) o));
           Frame "message_stop" message_stop_data]) /\
  (is_dict response = false ->
   snd (_send_completion_events response h) =
   h ++ [Frame "content_block_stop" content_block_stop_data]).
Proof.
  split; [|split].
  - destruct response; reflexivity.
  - intros o ->.
    cbv beta iota delta [_send_completion_events try_except bind lift _send_event emit get
                         field snd].
    rewrite <- !app_assoc. reflexivity.
  - intros Hd. destruct response; try discriminate; reflexivity.
Qed.

Lemma completion_events_never_raise_witness :
  snd (_send_completion_events JNull []) =
  [] ++ [Frame "content_block_stop" content_block_stop_data].
Proof.
  apply (proj2 (proj2 (completion_events_never_raise JNull []))). reflexivity.
Defined.

(** ** The tool executor *)

(** A tool name that is none of the six is answered with the text
    "Tool '<name>' is not implemented in local execution"; no tool body runs
    and nothing is raised. *)
Theorem unknown_tool_is_reported (env : environment) (name input : json) (h : history) :
  known_tool name = false ->
  execute_tool_locally env name input h =
  (Ok ("Tool '" ++ str env name ++ "' is not implemented in local execution")%string,
   h ++ [ToolRun name input
           ("Tool '" ++ str env name ++ "' is not implemented in local execution")%string]).
Proof.
  unfold known_tool. intros H.
  repeat (apply orb_false_iff in H; destruct H as [H ?]).
  rewrite execute_tool_locally_total. unfold tool_dispatch.
  repeat match goal with Hk : is_str name _ = false |- _ => rewrite Hk; clear Hk end.
  reflexivity.
Qed.

Lemma unknown_tool_is_reported_witness :
  execute_tool_locally (Sample.surroundings Sample.says_hello Sample.listing)
    (JStr "WebSearch") (JObj []) [] =
  (Ok "Tool 'WebSearch' is not implemented in local execution",
   [] ++ [ToolRun (JStr "WebSearch") (JObj [])
            "Tool 'WebSearch' is not implemented in local execution"]).
Proof.
  apply (unknown_tool_is_reported (Sample.surroundings Sample.says_hello Sample.listing)
           (JStr "WebSearch") (JObj []) []).
  reflexivity.
Defined.

(** * The translator and the payload *)

Lemma convert_message_plain (env : environment) (msg : json) (out : list json) :
  convert_message env msg = Ok out -> forallb plain_message out = true.
Proof.
  unfold convert_message.
  destruct (getitem msg "role") as [role|]; simpl; [|discriminate].
  destruct (getitem msg "content") as [content|]; simpl; [|discriminate].
  destruct content; try (intros E; inversion E; reflexivity).
  destruct (text_parts_of env l) as [[|p ps]|]; simpl; try discriminate.
  - intros E. inversion E. reflexivity.
  - destruct (join_values " " (p :: ps)); simpl; [|discriminate].
    intros E. inversion E. reflexivity.
Qed.

Lemma plain_message_kept (env : environment) (m : json) :
  plain_message m = true -> convert_message env m = Ok [m].
Proof.
  destruct m as [| | | | | |o]; try discriminate.
  destruct o as [|[k1 role] [|[k2 content] [|]]]; try discriminate.
  simpl. intros H.
  apply andb_prop in H. destruct H as [H Hc].
  apply andb_prop in H. destruct H as [H1 H2].
  apply String.eqb_eq in H1. apply String.eqb_eq in H2. subst k1 k2.
  destruct content; try discriminate; reflexivity.
Qed.

Lemma rmap_plain (env : environment) (msgs : list json) :
  forall converted,
    rmap (convert_message env) msgs = Ok converted ->
    forallb plain_message (concat converted) = true.
Proof.
  induction msgs as [|m msgs IH]; simpl; intros converted H.
  - inversion H. reflexivity.
  - destruct (convert_message env m) as [out|] eqn:Hm; simpl in H; [|discriminate].
    destruct (rmap (convert_message env) msgs) as [outs|]; simpl in H; [|discriminate].
    inversion H; subst. simpl. rewrite forallb_app, (convert_message_plain env m out Hm).
    apply IH. reflexivity.
Qed.

Lemma rmap_kept (env : environment) (out : list json) :
  forallb plain_message out = true ->
  rmap (convert_message env) out = Ok (map (fun m => [m]) out).
Proof.
  induction out as [|m out IH]; simpl; [reflexivity|].
  intros H. apply andb_prop in H. destruct H as [Hm Hout].
  rewrite (plain_message_kept env m Hm), (IH Hout). reflexivity.
Qed.

Lemma concat_singletons (out : list json) : concat (map (fun m => [m]) out) = out.
Proof. induction out as [|m out IH]; simpl; [|rewrite IH]; reflexivity. Qed.

(** Translating is idempotent: what the message translator returns is
    made of messages with a role and a content that is not a list, and
    translating that conversation again gives it back unchanged. *)
Theorem translation_is_idempotent (env : environment) (messages : json) (out : list json) :
  _convert_messages_to_openai env messages = Ok out ->
  forallb plain_message out = true /\
  _convert_messages_to_openai env (JList out) = Ok out.
Proof.
  unfold _convert_messages_to_openai.
  destruct (iter messages) as [msgs|]; simpl; [|discriminate].
  destruct (rmap (convert_message env) msgs) as [converted|] eqn:Hc; simpl; [|discriminate].
  intros E. inversion E; subst.
  pose proof (rmap_plain env msgs converted Hc) as Hplain.
  split; [exact Hplain|].
  rewrite (rmap_kept env _ Hplain). simpl. rewrite concat_singletons. reflexivity.
Qed.

Lemma translation_is_idempotent_witness :
  forallb plain_message
    [Sample.user_says "list files";
     JObj [("role", JStr "user");
           ("content", JStr "Here it is: Tool result: a.txt b.txt")]] = true /\
  _convert_messages_to_openai (Sample.surroundings Sample.says_hello Sample.listing)
    (JList [Sample.user_says "list files";
            JObj [("role", JStr "user");
                  ("content", JStr "Here it is: Tool result: a.txt b.txt")]]) =
  Ok [Sample.user_says "list files";
      JObj [("role", JStr "user");
            ("content", JStr "Here it is: Tool result: a.txt b.txt")]].
Proof.
  apply (translation_is_idempotent (Sample.surroundings Sample.says_hello Sample.listing)
           Runs.mixed_conversation).
  reflexivity.
Defined.

(** ** What is posted to the backend *)

Lemma min_with_at_most (v : json) (k : Z) (m : json) :
  min_with v k = Ok m -> at_most m k || is_nan m = true.
Proof.
  destruct v as [|b|n|[q|negative|]| | |]; simpl; try discriminate;
    intros E; inversion E; subst; clear E.
  - destruct (k <? (if b then 1 else 0))%Z eqn:Hk; simpl; rewrite orb_false_r.
    + apply Z.leb_refl.
    + apply Z.leb_le. apply Z.ltb_ge in Hk. exact Hk.
  - destruct (k <? n)%Z eqn:Hk; simpl; rewrite orb_false_r.
    + apply Z.leb_refl.
    + apply Z.leb_le. apply Z.ltb_ge in Hk. exact Hk.
  - destruct (Qle_bool q (inject_Z k)) eqn:Hq; simpl; rewrite orb_false_r.
    + exact Hq.
    + apply Z.leb_refl.
  - destruct negative; simpl; [reflexivity|]. rewrite orb_false_r. apply Z.leb_refl.
  - reflexivity.
Qed.

Lemma min_with_keeps_nan (v : json) (k : Z) (m : json) :
  min_with v k = Ok m -> is_nan v = false -> is_nan m = false.
Proof.
  destruct v as [|b|n|[q|negative|]| | |]; simpl; try discriminate;
    intros E; inversion E; subst; clear E; intros _.
  - destruct (k <? (if b then 1 else 0))%Z; reflexivity.
  - destruct (k <? n)%Z; reflexivity.
  - destruct (Qle_bool q (inject_Z k)); reflexivity.
  - destruct negative; reflexivity.
Qed.

Lemma build_payload_capped (ms ts : list json) (req payload : json) :
  build_payload ms ts req = Ok payload ->
  capped_or_nan payload && no_empty_tools payload = true /\
  (asks_nan req = false -> capped payload && no_empty_tools payload = true).
Proof.
  unfold build_payload, asks_nan.
  destruct (get req "max_tokens" (JInt 4096)) as [requested|]; simpl; [|discriminate].
  destruct (min_with requested 16384) as [max_tokens|] eqn:Hmin; simpl; [|discriminate].
  destruct (get req "temperature" (JFloat (Finite (7 # 10)))) as [temperature|]; simpl;
    [|discriminate].
  intros E. inversion E; subst; clear E.
  pose proof (min_with_at_most _ _ _ Hmin) as Hcap.
  unfold capped_or_nan, capped. simpl. split.
  - rewrite Hcap. destruct ts; reflexivity.
  - intros Hnan. rewrite (min_with_keeps_nan _ _ _ Hmin Hnan), orb_false_r in Hcap.
    rewrite Hcap. destruct ts; reflexivity.
Qed.

Lemma quiet_posts (P : json -> bool) {A} (m : M A) : emits quiet_event m -> emits (posts P) m.
Proof.
  apply emits_weaken. intros e. destruct e; simpl; auto; discriminate.
Qed.

Section Payloads.

Context (env : environment) (req : json) (P : json -> bool).

Hypothesis built :
  forall ms ts payload, build_payload ms ts req = Ok payload -> P payload = true.

Lemma call_groq_api_posts (ms ts : list json) : emits (posts P) (_call_groq_api env ms ts req).
Proof.
  intros h. unfold _call_groq_api, bind, lift, past, emit, ret.
  destruct (build_payload ms ts req) as [payload|e] eqn:Hp.
  - exists [Post payload (requests_post env h payload)]. simpl.
    rewrite (built ms ts payload Hp). auto.
  - exists []. simpl. rewrite app_nil_r. auto.
Qed.

Lemma tool_loop_posts (ts : list json) :
  forall (fuel : nat) (st : locals), emits (posts P) (tool_loop env fuel ts req st).
Proof.
  induction fuel as [|fuel IH]; intros st; simpl.
  - apply emits_ret.
  - destruct (iteration st <? MAX_TOOL_ITERATIONS)%nat; [|apply emits_ret].
    apply emits_bind; [|intros [[|] st']; [apply IH | apply emits_ret]].
    unfold loop_body.
    apply emits_bind; [apply quiet_posts, progress_quiet | intros _].
    apply emits_bind; [apply call_groq_api_posts | intros response].
    apply quiet_posts, inspect_response_quiet.
Qed.

Lemma process_posts (message_id : string) :
  emits (posts P) (_process_conversation_with_streaming env req message_id).
Proof.
  unfold _process_conversation_with_streaming, run_conversation.
  emits_auto; try apply tool_loop_posts.
  apply quiet_posts, progress_quiet.
Qed.

Lemma handlers_post :
  emits (posts P) (handle_streaming_conversation env req) /\
  emits (posts P) (handle_complete_conversation env req).
Proof.
  split.
  - unfold handle_streaming_conversation, stream_conversation, new_message_id,
      _send_completion_events, _send_error_event, _send_event.
    emits_auto; try apply process_posts.
    apply quiet_posts, stream_text_quiet.
  - unfold handle_complete_conversation, _execute_complete_conversation, new_message_id.
    emits_auto; apply process_posts.
Qed.

End Payloads.

Lemma answer_error_posts (env : environment) (P : json -> bool) (e : exn) :
  emits (posts P) (answer_error env e).
Proof. unfold answer_error, log_debug. emits_auto. Qed.

Lemma handle_messages_posts (env : environment) (P : json -> bool)
    (post_data : result string) :
  (forall data req ms ts payload,
     post_data = Ok data -> json_loads_bytes env data = Ok req ->
     build_payload ms ts req = Ok payload -> P payload = true) ->
  emits (posts P) (handle_messages env post_data).
Proof.
  intros HP. unfold handle_messages.
  apply emits_try; [|intros e; apply answer_error_posts].
  destruct post_data as [data|e]; [|intros h; exists []; simpl; rewrite app_nil_r; auto].
  destruct (json_loads_bytes env data) as [req|e] eqn:Hload;
    [|intros h; exists []; unfold bind, lift; rewrite Hload; simpl; rewrite app_nil_r; auto].
  assert (Hreq : forall ms ts payload, build_payload ms ts req = Ok payload -> P payload = true).
  { intros ms ts payload. apply (HP data req ms ts payload eq_refl Hload). }
  destruct (handlers_post env req P Hreq) as [Hstream Hcomplete].
  intros h. unfold bind at 1. unfold lift at 1. cbv beta iota.
  unfold bind at 1. unfold lift at 1. rewrite Hload. cbv beta iota.
  revert h.
  match goal with
  | |- forall h, exists es, snd (?m h) = _ /\ _ => change (emits (posts P) m)
  end.
  unfold log_debug. emits_auto; assumption.
Qed.

(** Whatever the client asks for, every payload posted to the backend while
    a POST is served carries no empty list of tools and asks for at most
    16384 tokens, or for NaN tokens; and it asks for NaN only when the
    request does: for a body that parses to a request whose [max_tokens] is
    not NaN every payload asks for at most 16384. *)
Theorem every_payload_is_capped (env : environment) (request_path : string)
    (post_data : result string) (h : history) :
  (exists es,
     snd (do_POST env request_path post_data h) = h ++ es /\
     forallb (posts (fun payload => capped_or_nan payload && no_empty_tools payload)) es
     = true) /\
  (forall data req,
     post_data = Ok data -> json_loads_bytes env data = Ok req -> asks_nan req = false ->
     exists es,
       snd (do_POST env request_path post_data h) = h ++ es /\
       forallb (posts (fun payload => capped payload && no_empty_tools payload)) es = true).
Proof.
  unfold do_POST.
  destruct (String.eqb (before_query request_path) "/v1/messages" ||
            String.eqb (before_query request_path) "/messages").
  - split.
    + apply handle_messages_posts. intros data req ms ts payload _ _ Hp.
      apply (build_payload_capped ms ts req payload Hp).
    + intros data req Hdata Hload Hnan. apply handle_messages_posts.
      intros data' req' ms ts payload Hdata' Hload' Hp.
      rewrite Hdata in Hdata'. inversion Hdata'; subst data'.
      rewrite Hload in Hload'. inversion Hload'; subst req'.
      apply (build_payload_capped ms ts req payload Hp). exact Hnan.
  - split; [|intros data req _ _ _]; (eexists; split; reflexivity).
Qed.

Lemma every_payload_is_capped_witness :
  exists es,
    snd (do_POST (Sample.surroundings Sample.says_hello Sample.listing) "/v1/messages"
           (Ok "{}") []) = [] ++ es /\
    forallb (posts (fun payload => capped payload && no_empty_tools payload)) es = true.
Proof.
  apply (proj2 (every_payload_is_capped
                  (Sample.surroundings Sample.says_hello Sample.listing) "/v1/messages"
                  (Ok "{}") [])
           "{}" (JObj [])); reflexivity.
Defined.

(** ** How many progress frames are written *)

Lemma inspect_response_frames (env : environment) (st : locals) (n : nat) (r : json)
    (h : history) (f : flow) (st' : locals) (h' : history) :
  inspect_response env st n r h = (Ok (f, st'), h') ->
  length (frames h) <= length (frames h') /\
  length (frames h') <=
    length (frames h) + 1 + (total_tool_calls st' - total_tool_calls st).
Proof.
  unfold inspect_response. destruct (truthy r).
  - intros H. change (negb true) with false in H. cbv iota in H. returned H.
    match type of H with
    | (if truthy ?v then _ else _) _ = _ => destruct (truthy v)
    end.
    + returned H.
      match goal with
      | E : run_tool_calls _ _ _ _ _ _ = _ |- _ =>
          destruct (run_tool_calls_returns _ _ _ _ _ _ _ _ E)
            as (added & _ & _ & _ & _ & _ & Hframes)
      end.
      match goal with
      | Hl : len _ = Ok _, Hi : iter _ = Ok _ |- _ =>
          pose proof (len_iter _ _ _ Hl Hi) as Hcount
      end.
      unfold ret in H. inversion H; subst; clear H. simpl.
      rewrite Hframes, frames_app, length_app. simpl.
      match goal with
      | |- context [(1 <? ?c)%nat] => destruct (1 <? c)%nat
      end; lia.
    + unfold ret in H. inversion H; subst; clear H. simpl. lia.
  - intros H. change (negb false) with true in H. cbv iota in H.
    unfold ret in H. inversion H; subst; clear H. simpl. lia.
Qed.

Lemma loop_body_frames (env : environment) (ts : list json) (req : json) (st : locals)
    (h : history) (f : flow) (st' : locals) (h' : history) :
  loop_body env ts req st h = (Ok (f, st'), h') ->
  length (frames h) + 1 <= length (frames h') /\
  length (frames h') <=
    length (frames h) + 2 + (total_tool_calls st' - total_tool_calls st).
Proof.
  unfold loop_body. intros H. returned H.
  match goal with
  | E : _call_groq_api _ _ _ _ _ = _ |- _ =>
      destruct (call_groq_api_returns _ _ _ _ _ _ _ E) as (payload & _ & _ & ->)
  end.
  destruct (inspect_response_frames _ _ _ _ _ _ _ _ H) as [Hlo Hhi].
  rewrite !frames_app, !length_app in Hlo, Hhi. simpl in Hlo, Hhi. lia.
Qed.

Lemma tool_loop_frames (env : environment) (ts : list json) (req : json) :
  forall (fuel : nat) (st : locals) (h : history) (st' : locals) (h' : history),
    tool_loop env fuel ts req st h = (Ok st', h') ->
    length (frames h) + (iteration st' - iteration st) <= length (frames h') /\
    length (frames h') <=
      length (frames h) + 2 * (iteration st' - iteration st) +
      (total_tool_calls st' - total_tool_calls st).
Proof.
  induction fuel as [|fuel IH]; intros st h st' h' H.
  - simpl in H. unfold ret in H. inversion H; subst. lia.
  - rewrite tool_loop_pass in H.
    destruct (iteration st <? MAX_TOOL_ITERATIONS)%nat;
      [|unfold ret in H; inversion H; subst; lia].
    apply bind_ok_inv in H. destruct H as ([f st1] & h1 & Ebody & H).
    destruct (loop_body_frames env ts req st h f st1 h1 Ebody) as [Hlo Hhi].
    destruct (loop_body_returns env ts req st h f st1 h1 Ebody) as (Hit & _ & Htot & _).
    destruct f.
    + destruct (IH st1 h1 st' h' H) as [Hlo' Hhi'].
      destruct (tool_loop_returns env ts req _ _ _ _ _ H) as (Hit' & _ & _ & Htot' & _).
      lia.
    + unfold ret in H. inversion H; subst. lia.
Qed.

(** A returning conversation has written the starting frame and at least
    one progress frame per iteration, and at most two per iteration and one
    per tool call on top of the starting frame. *)
Theorem progress_frames_are_bounded (env : environment) (req : json) (h : history)
    (st : locals) (h' : history) :
  run_conversation env req h = (Ok st, h') ->
  length (frames h) + 1 + iteration st <= length (frames h') /\
  length (frames h') <=
    length (frames h) + 1 + 2 * iteration st + total_tool_calls st.
Proof.
  intros H. destruct (run_conversation_returns env req h st h' H) as (conv & ts & _ & Hloop).
  destruct (tool_loop_frames env ts req _ _ _ _ _ Hloop) as [Hlo Hhi].
  rewrite frames_app, length_app in Hlo, Hhi. simpl in Hlo, Hhi. lia.
Qed.

Lemma progress_frames_are_bounded_witness :
  length (frames []) + 1 + iteration Runs.listing_state
    <= length (frames (snd Runs.listing_run)) /\
  length (frames (snd Runs.listing_run)) <=
    length (frames []) + 1 + 2 * iteration Runs.listing_state
    + total_tool_calls Runs.listing_state.
Proof.
  apply (progress_frames_are_bounded
           (Sample.surroundings Sample.lists_then_answers Sample.listing)
           (Sample.list_files false) [] Runs.listing_state (snd Runs.listing_run)).
  reflexivity.
Defined.

(** ** Requests that cannot be translated *)

Lemma rmap_fails {A B} (f : A -> result B) (l : list A) (x : A) (e : exn) :
  In x l -> f x = Raise e -> exists e', rmap f l = Raise e'.
Proof.
  induction l as [|y l IH]; simpl; [contradiction|].
  intros [->|Hin] Hx.
  - rewrite Hx. simpl. eauto.
  - destruct (f y); simpl; [|eauto].
    destruct (IH Hin Hx) as [e' ->]. simpl. eauto.
Qed.

Lemma message_without_field (env : environment) (m : list (string * json)) :
  has_key "role" m && has_key "content" m = false ->
  exists e, convert_message env (JObj m) = Raise e.
Proof.
  unfold convert_message, has_key. simpl.
  destruct (assoc "role" m); simpl; [|eauto].
  destruct (assoc "content" m); simpl; [discriminate | eauto].
Qed.

(** A request object whose messages or tools cannot be translated is
    refused before any backend call: the non-streaming handler answers with
    status 500 and the streaming one with an error frame, each right after
    the starting frame.  A message without a role or without a content,
    anywhere in the list, makes a request such a one. *)
Theorem untranslatable_request_is_refused (env : environment) (o : list (string * json))
    (h : history) :
  (forall e,
     translate env (JObj o) = Raise e ->
     handle_complete_conversation env (JObj o) h =
       (Ok tt, h ++ [starting; SendError 500 (exn_str env e)]) /\
     handle_streaming_conversation env (JObj o) h =
       (Ok tt,
        h ++ [SendResponse 200 "text/event-stream";
              Frame "message_start"
                (message_start_data
                   ("msg_" ++ uuid_hex8 env (h ++ [SendResponse 200 "text/event-stream"])));
              Frame "content_block_start" content_block_start_data;
              starting;
              Frame "error" (error_data (exn_str env e))])) /\
  (forall msgs m,
     assoc "messages" o = Some (JList msgs) ->
     In (JObj m) msgs ->
     has_key "role" m && has_key "content" m = false ->
     exists e, translate env (JObj o) = Raise e).
Proof.
  split.
  - intros e Htr.
    assert (Hrun : forall h0, run_conversation env (JObj o) h0 = (Raise e, h0 ++ [starting])).
    { intros h0. revert Htr. unfold translate, run_conversation, bind, lift. simpl.
      destruct (_convert_messages_to_openai env _) as [conv|]; simpl;
        [|intros E; inversion E; reflexivity].
      destruct (_convert_tools_to_openai _) as [ts|]; simpl;
        [discriminate | intros E; inversion E; reflexivity]. }
    split.
    + cbv beta iota delta [handle_complete_conversation try_except
                           _execute_complete_conversation bind new_message_id past ret
                           _process_conversation_with_streaming].
      rewrite Hrun. unfold emit. rewrite <- app_assoc. reflexivity.
    + cbv beta iota delta [handle_streaming_conversation try_except stream_conversation
                           bind new_message_id past ret emit _send_event
                           _process_conversation_with_streaming].
      rewrite Hrun. unfold _send_error_event, _send_event, emit.
      rewrite <- !app_assoc. reflexivity.
  - intros msgs m Hms Hin Hm.
    destruct (message_without_field env m Hm) as [e He].
    destruct (rmap_fails (convert_message env) msgs (JObj m) e Hin He) as [e' Hfail].
    exists e'. unfold translate, _convert_messages_to_openai. simpl.
    rewrite Hms. simpl. rewrite Hfail. reflexivity.
Qed.

Lemma untranslatable_request_is_refused_witness :
  handle_complete_conversation (Sample.surroundings Sample.says_hello Sample.listing)
    (JObj Runs.nameless) [] =
  (Ok tt, [] ++ [starting; SendError 500 "KeyError"]).
Proof.
  apply (proj1 (untranslatable_request_is_refused
                  (Sample.surroundings Sample.says_hello Sample.listing) Runs.nameless [])
           KeyError).
  reflexivity.
Defined.

(** ** A failing backend on the streaming path *)

Lemma process_failing (env : environment) (req : json) (message_id : string) (h : history) :
  every_call_fails env ->
  exists e es,
    _process_conversation_with_streaming env req message_id h = (Raise e, h ++ es) /\
    forallb loop_event es = true.
Proof.
  intros Hfail.
  destruct (process_loop env req message_id h) as (es & E & Hes).
  assert (Hraise : exists e h',
            _process_conversation_with_streaming env req message_id h = (Raise e, h')).
  { unfold _process_conversation_with_streaming. unfold bind at 1.
    destruct (run_conversation_failing env req h Hfail)
      as [(e & h' & Erun)|(st & h' & Erun & Hr & _)]; rewrite Erun.
    - eauto.
    - destruct (build_final_response_none message_id st Hr) as [e Ee].
      unfold lift. rewrite Ee. eauto. }
  destruct Hraise as (e & h' & Eraise). rewrite Eraise in E. simpl in E. subst h'.
  eauto.
Qed.

(** When every backend call fails, a streaming request is answered with the
    two opening frames, progress deltas and then one error frame: the
    closing frames are never sent, and the handler itself does not raise. *)
Theorem streaming_backend_failure_ends_in_error_frame (env : environment) (req : json)
    (h : history) :
  every_call_fails env ->
  exists e es,
    handle_streaming_conversation env req h =
      (Ok tt,
       h ++ [SendResponse 200 "text/event-stream";
             Frame "message_start"
               (message_start_data
                  ("msg_" ++ uuid_hex8 env (h ++ [SendResponse 200 "text/event-stream"])));
             Frame "content_block_start" content_block_start_data]
         ++ es ++ [Frame "error" (error_data (exn_str env e))]) /\
    forallb loop_event es = true.
Proof.
  intros Hfail.
  cbv beta iota delta [handle_streaming_conversation try_except stream_conversation
                       bind new_message_id past ret emit _send_event].
  match goal with
  | |- context [_process_conversation_with_streaming env req ?mid ?h1] =>
      destruct (process_failing env req mid h1 Hfail) as (e & es & E & Hes); rewrite E
  end.
  exists e, es. split; [|exact Hes].
  unfold _send_error_event, _send_event, emit. rewrite <- !app_assoc. reflexivity.
Qed.

Lemma streaming_backend_failure_ends_in_error_frame_witness :
  exists e es,
    handle_streaming_conversation (Sample.surroundings Sample.times_out Sample.listing)
      (Sample.list_files true) [] =
      (Ok tt,
       [] ++ [SendResponse 200 "text/event-stream";
              Frame "message_start"
                (message_start_data
                   ("msg_" ++ uuid_hex8 (Sample.surroundings Sample.times_out Sample.listing)
                                 ([] ++ [SendResponse 200 "text/event-stream"])));
              Frame "content_block_start" content_block_start_data]
          ++ es ++ [Frame "error"
                      (error_data (exn_str (Sample.surroundings Sample.times_out Sample.listing)
                                     e))]) /\
    forallb loop_event es = true.
Proof.
  apply (streaming_backend_failure_ends_in_error_frame
           (Sample.surroundings Sample.times_out Sample.listing) (Sample.list_files true) []).
  intros h payload. reflexivity.
Defined.
